(** * database-race: the benchmark orchestration core, embedded in Rocq

    Shallow embedding of [common/src/benchmark.rs], [common/src/server.rs],
    [common/src/models.rs] and of the three backend adapters (SQLite, DuckDB,
    RocksDB): their lifecycle hooks and the benchmark operations whose
    outcome or store depends on the data.

    Conventions:
    - [f64] is Rocq's primitive binary64 [float]; Rust's [x as f64] on an
      integer is the correctly rounded conversion [int_as_f64].
    - [u64] values are [Z] reduced modulo [2^64] where Rust truncates.
    - Everything the code reads from the outside world (the monotonic clock,
      the UTC clock, [rand::thread_rng], the entropy behind [Uuid::new_v4])
      is read from a world state [W] through the class [Env]; effectful code
      is state passing in the monad [M W], whose outcome is a value, an
      [anyhow::Error] or a panic. *)

From Stdlib Require Import ZArith List Bool Lia String Floats.
From Stdlib Require Import DecimalString Ascii.
Import ListNotations.

Open Scope Z_scope.

(** ** Machine numbers *)

Definition u64_modulus : Z := 2 ^ 64.

(** [x as u64] for a non-negative integer wider than 64 bits. *)
Definition as_u64 (x : Z) : Z := x mod u64_modulus.

(** [x as f64] for an integer [x]: round to nearest, ties to even. *)
Definition int_as_f64 (x : Z) : float :=
  SF2Prim (binary_normalize prec emax x 0 false).

(** ** Data model ([common/src/models.rs]) *)

(** [Uuid]: a 128-bit value. *)
Definition Uuid := Z.

(** [DateTime<Utc>]: nanoseconds since the epoch. *)
Definition DateTime := Z.

Record User := mkUser {
  user_id_ : Uuid;
  user_name : string;
  user_email : string;
  user_created_at : DateTime;
  user_active : bool
}.

Record Product := mkProduct {
  product_id_ : Uuid;
  product_name : string;
  product_description : string;
  price : float;
  stock : Z;
  product_created_at : DateTime
}.

Record Order := mkOrder {
  order_id : Uuid;
  user_id : Uuid;
  product_id : Uuid;
  quantity : Z;
  total_price : float;
  order_created_at : DateTime
}.

Record BenchmarkResult := mkBenchmarkResult {
  br_database : string;
  test_name : string;
  operations : nat;
  duration_ms : Z;
  operations_per_second : float;
  cpu_count : nat;
  br_timestamp : DateTime
}.

Record BenchmarkResults := mkBenchmarkResults {
  database : string;
  results : list BenchmarkResult;
  timestamp : DateTime
}.

(** ** The world and the effect monad *)

(** What the code reads from outside: [Instant::now()] (monotonic, in ns),
    [Utc::now()], [rng.gen_range(lo..hi)], [rng.gen_bool(p)] on
    [rand::thread_rng()], and the 128 random bits [Uuid::new_v4] draws. *)
Class Env (W : Type) := {
  instant_now : W -> Z;
  utc_now : W -> DateTime;
  gen_range : Z -> Z -> W -> Z * W;
  gen_bool : float -> W -> bool * W;
  rng_u128 : W -> Z * W
}.

(** Outcome of a Rust computation: a value, an [Err] propagated by [?],
    or a panic. *)
Inductive Outcome (A : Type) : Type :=
| Ok (a : A)
| Err (e : string)
| Panic (msg : string).
Arguments Ok {A} a.
Arguments Err {A} e.
Arguments Panic {A} msg.

Definition M (W A : Type) : Type := W -> Outcome A * W.

Section Monad.
Context {W : Type}.

Definition ret {A} (a : A) : M W A := fun s => (Ok a, s).

(** [e?]: propagate an error or a panic, keep the state reached. *)
Definition bind {A B} (m : M W A) (k : A -> M W B) : M W B :=
  fun s =>
    match m s with
    | (Ok a, s') => k a s'
    | (Err e, s') => (Err e, s')
    | (Panic p, s') => (Panic p, s')
    end.

(** A pure state transformer (the generators) as a computation. *)
Definition lift {A} (f : W -> A * W) : M W A :=
  fun s => let '(a, s') := f s in (Ok a, s').

End Monad.

Notation "x <- m ;; k" := (bind m (fun x => k))
  (at level 61, m at next level, right associativity).
Notation "m ;;; k" := (bind m (fun _ => k))
  (at level 61, right associativity).

(** ** Measurement engine ([measure_execution]) *)

(** [Duration]: non-negative nanoseconds. [start.elapsed()] saturates at zero. *)
Definition elapsed (start now : Z) : Z := Z.max 0 (now - start).

(** [Duration::as_millis]: whole milliseconds, as a [u128]. *)
Definition as_millis (d : Z) : Z := d / 1000000.

Section Measure.
Context {W : Type} `{Env W}.

Definition measure_execution (database_name test_name : string)
    (operations_ : nat) (cpu_count_ : nat) (f : M W unit)
    : M W BenchmarkResult :=
  start <- lift (fun s => (instant_now s, s)) ;;
  f ;;;
  now <- lift (fun s => (instant_now s, s)) ;;
  let duration := elapsed start now in
  let duration_ms_ := as_u64 (as_millis duration) in
  let operations_per_second_ :=
    if 0 <? duration_ms_ then
      (int_as_f64 (Z.of_nat operations_) / (int_as_f64 duration_ms_ / 1000))%float
    else int_as_f64 (Z.of_nat operations_) in
  ts <- lift (fun s => (utc_now s, s)) ;;
  ret {| br_database := database_name;
         test_name := test_name;
         operations := operations_;
         duration_ms := duration_ms_;
         operations_per_second := operations_per_second_;
         cpu_count := cpu_count_;
         br_timestamp := ts |}.

End Measure.

(** ** Data generator ([generate_random_user], [generate_random_product],
    [generate_random_order]) *)

(** [format!("{}", n)] for an integer. *)
Definition decimal (n : Z) : string := NilZero.string_of_int (Z.to_int n).

(** [Uuid::new_v4()] (uuid 1.x): one 128-bit draw, with the version and
    variant bits overwritten:
    [Uuid::from_u128(u128 & 0xFFFFFFFFFFFF4FFFBFFFFFFFFFFFFFFF | 0x40008000000000000000)]. *)
Definition uuid_v4_mask : Z := 0xFFFFFFFFFFFF4FFFBFFFFFFFFFFFFFFF.
Definition uuid_v4_bits : Z := 0x40008000000000000000.

Definition uuid_from_u128 (x : Z) : Uuid :=
  Z.lor (Z.land x uuid_v4_mask) uuid_v4_bits.

(** The 122 bits of the draw that survive in the identifier. *)
Definition uuid_v4_free : Z := 0xFFFFFFFFFFFF0FFF3FFFFFFFFFFFFFFF.

Section Generators.
Context {W : Type} `{Env W}.

Definition new_v4 (s : W) : Uuid * W :=
  let '(x, s') := rng_u128 s in (uuid_from_u128 x, s').

(** Struct fields are evaluated in the order they are written. *)
Definition generate_random_user (s0 : W) : User * W :=
  let '(id, s1) := new_v4 s0 in
  let '(n1, s2) := gen_range 1000 9999 s1 in
  let '(n2, s3) := gen_range 1000 9999 s2 in
  let created_at := utc_now s3 in
  let '(active, s4) := gen_bool 0x1.ccccccccccccdp-1%float s3 in
  (mkUser id ("User " ++ decimal n1)%string
     ("user" ++ decimal n2 ++ "@example.com")%string created_at active, s4).

Definition generate_random_product (s0 : W) : Product * W :=
  let '(id, s1) := new_v4 s0 in
  let '(n1, s2) := gen_range 1000 9999 s1 in
  let '(n2, s3) := gen_range 1000 9999 s2 in
  let '(cents, s4) := gen_range 100 10000 s3 in
  let price_ := (int_as_f64 cents / 100)%float in
  let '(stock_, s5) := gen_range 0 1000 s4 in
  (mkProduct id ("Product " ++ decimal n1)%string
     ("Description for product " ++ decimal n2)%string price_ stock_
     (utc_now s5), s5).

Definition generate_random_order (user_id_arg product_id_arg : Uuid) (s0 : W)
    : Order * W :=
  let '(quantity_, s1) := gen_range 1 10 s0 in
  let '(c, s2) := gen_range 1000 10000 s1 in
  let price_ := (int_as_f64 c / 100)%float in
  let '(id, s3) := new_v4 s2 in
  (mkOrder id user_id_arg product_id_arg quantity_
     (price_ * int_as_f64 quantity_)%float (utc_now s3), s3).

(** [(0..count).map(|_| g()).collect::<Vec<_>>()] *)
Fixpoint collect {A} (count : nat) (g : W -> A * W) (s : W) : list A * W :=
  match count with
  | O => ([], s)
  | S n => let '(a, s1) := g s in
           let '(rest, s2) := collect n g s1 in (a :: rest, s2)
  end.

Definition from_outcome {A} (o : Outcome A) : M W A := fun s => (o, s).

(** [xs[i]]: panics out of range. *)
Definition index {A} (xs : list A) (i : nat) : Outcome A :=
  match nth_error xs i with
  | Some x => Ok x
  | None => Panic "index out of bounds"
  end.

(** [i % n] on [usize]: panics when [n = 0]. *)
Definition rem_usize (i n : nat) : Outcome nat :=
  if Nat.eqb n 0
  then Panic "attempt to calculate the remainder with a divisor of zero"
  else Ok (Nat.modulo i n).

(** [for i in 0..count { ...; orders.push(generate_random_order(user_id, product_id)); }] *)
Fixpoint order_loop (users : list User) (products : list Product)
    (is : list nat) (orders : list Order) : M W (list Order) :=
  match is with
  | [] => ret orders
  | i :: rest =>
      ui <- from_outcome (rem_usize i (List.length users)) ;;
      u <- from_outcome (index users ui) ;;
      pi <- from_outcome (rem_usize i (List.length products)) ;;
      p <- from_outcome (index products pi) ;;
      o <- lift (generate_random_order (user_id_ u) (product_id_ p)) ;;
      order_loop users products rest (orders ++ [o])
  end.

(** The generation half of [generate_test_data], the same text in the
    SQLite, DuckDB and RocksDB adapters. *)
Definition generate_batch (count : nat)
    : M W (list User * list Product * list Order) :=
  users <- lift (collect count generate_random_user) ;;
  products <- lift (collect count generate_random_product) ;;
  orders <- order_loop users products (seq 0 count) [] ;;
  ret (users, products, orders).

End Generators.

(** ** Benchmark contract ([trait DatabaseBenchmark]) *)

Class DatabaseBenchmark (W : Type) := {
  init : M W unit;
  generate_test_data : nat -> M W unit;
  cleanup : M W unit;
  database_name : string;
  set_cpu_count : nat -> W -> W;
  get_cpu_count : W -> nat;
  insert_single_many_times : nat -> M W BenchmarkResult;
  insert_many_at_once : nat -> M W BenchmarkResult;
  read_by_id_many_times : nat -> M W BenchmarkResult;
  read_many_by_ids : nat -> M W BenchmarkResult;
  read_by_column_search : nat -> M W BenchmarkResult;
  read_with_one_join : nat -> M W BenchmarkResult;
  read_with_two_joins : nat -> M W BenchmarkResult;
  update_single_field_one_entry : nat -> M W BenchmarkResult;
  update_single_field_many_entries : nat -> M W BenchmarkResult;
  update_multiple_fields_one_entry : nat -> M W BenchmarkResult;
  update_multiple_fields_many_entries : nat -> M W BenchmarkResult
}.

Section Contract.
Context {W : Type} `{Env W} `{DatabaseBenchmark W}.

(** The trait's provided method; no adapter overrides it. *)
Definition run_all_benchmarks : M W BenchmarkResults :=
  r1 <- insert_single_many_times 2000%nat ;;
  r2 <- insert_many_at_once 1000%nat ;;
  r3 <- read_by_id_many_times 1000%nat ;;
  r4 <- read_many_by_ids 2000%nat ;;
  r5 <- read_by_column_search 2000%nat ;;
  r6 <- read_with_one_join 2000%nat ;;
  r7 <- read_with_two_joins 2000%nat ;;
  r8 <- update_single_field_one_entry 500%nat ;;
  r9 <- update_single_field_many_entries 1000%nat ;;
  r10 <- update_multiple_fields_one_entry 200%nat ;;
  r11 <- update_multiple_fields_many_entries 5000%nat ;;
  ts <- lift (fun s => (utc_now s, s)) ;;
  ret {| database := database_name;
         results := [r1; r2; r3; r4; r5; r6; r7; r8; r9; r10; r11];
         timestamp := ts |}.

End Contract.

(** The eleven operations, by their identifiers in the spec. *)
Inductive TestKind :=
| InsertSingleManyTimes
| InsertManyAtOnce
| ReadByIdManyTimes
| ReadManyByIds
| ReadByColumnSearch
| ReadWithOneJoin
| ReadWithTwoJoins
| UpdateSingleFieldOneEntry
| UpdateSingleFieldManyEntries
| UpdateMultipleFieldsOneEntry
| UpdateMultipleFieldsManyEntries.

Definition dispatch {W} `{DatabaseBenchmark W} (k : TestKind)
    : nat -> M W BenchmarkResult :=
  match k with
  | InsertSingleManyTimes => insert_single_many_times
  | InsertManyAtOnce => insert_many_at_once
  | ReadByIdManyTimes => read_by_id_many_times
  | ReadManyByIds => read_many_by_ids
  | ReadByColumnSearch => read_by_column_search
  | ReadWithOneJoin => read_with_one_join
  | ReadWithTwoJoins => read_with_two_joins
  | UpdateSingleFieldOneEntry => update_single_field_one_entry
  | UpdateSingleFieldManyEntries => update_single_field_many_entries
  | UpdateMultipleFieldsOneEntry => update_multiple_fields_one_entry
  | UpdateMultipleFieldsManyEntries => update_multiple_fields_many_entries
  end.

(** The canonical order and the per-operation counts, one table for every
    backend. *)
Definition canonical_plan : list (TestKind * nat) :=
  [(InsertSingleManyTimes, 2000%nat); (InsertManyAtOnce, 1000%nat);
   (ReadByIdManyTimes, 1000%nat); (ReadManyByIds, 2000%nat);
   (ReadByColumnSearch, 2000%nat); (ReadWithOneJoin, 2000%nat);
   (ReadWithTwoJoins, 2000%nat); (UpdateSingleFieldOneEntry, 500%nat);
   (UpdateSingleFieldManyEntries, 1000%nat);
   (UpdateMultipleFieldsOneEntry, 200%nat);
   (UpdateMultipleFieldsManyEntries, 5000%nat)].

(** [runs_plan plan s rs s']: the operations of [plan], invoked one after the
    other from state [s] with their counts, all succeed, return [rs] in order
    and leave state [s']. *)
Inductive runs_plan {W} `{DatabaseBenchmark W}
    : list (TestKind * nat) -> W -> list BenchmarkResult -> W -> Prop :=
| runs_nil s : runs_plan [] s [] s
| runs_cons k n rest s r s1 rs s2 :
    dispatch k n s = (Ok r, s1) ->
    runs_plan rest s1 rs s2 ->
    runs_plan ((k, n) :: rest) s (r :: rs) s2.

(** ** Control-plane server ([common/src/server.rs]) *)

Definition StatusCode := Z.
Definition INTERNAL_SERVER_ERROR : StatusCode := 500.
Definition NOT_FOUND : StatusCode := 404.

(** What a handler answers: [Json(results)], a bare status, or the root text. *)
Inductive Response :=
| Json (r : BenchmarkResults)
| Status (code : StatusCode)
| Text (body : string).

(** [AppState]: the backend and the [Mutex<Option<BenchmarkResults>>] slot. *)
Record AppState (W : Type) := mkAppState {
  benchmark : W;
  results_slot : option BenchmarkResults
}.
Arguments mkAppState {W} benchmark results_slot.
Arguments benchmark {W} a.
Arguments results_slot {W} a.

Definition root_text : string :=
  "Database Benchmark API. Use /run to run benchmarks and /results to view results.".

Section Server.
Context {W : Type} `{Env W} `{DatabaseBenchmark W}.

(** A handler step: [Ok (inr code)] is an early [Err(StatusCode)] return. *)
Definition HM (A : Type) : Type := W -> Outcome (A + StatusCode) * W.

(** [m.await.map_err(|e| { error!(..); code })?] *)
Definition map_err {A} (code : StatusCode) (m : M W A) : HM A :=
  fun s =>
    match m s with
    | (Ok a, s') => (Ok (inl a), s')
    | (Err _, s') => (Ok (inr code), s')
    | (Panic p, s') => (Panic p, s')
    end.

Definition hbind {A B} (m : HM A) (k : A -> HM B) : HM B :=
  fun s =>
    match m s with
    | (Ok (inl a), s') => k a s'
    | (Ok (inr c), s') => (Ok (inr c), s')
    | (Err e, s') => (Err e, s')
    | (Panic p, s') => (Panic p, s')
    end.

Definition run_benchmark_handler (st : AppState W) : Outcome Response * AppState W :=
  let steps :=
    hbind (map_err INTERNAL_SERVER_ERROR init) (fun _ =>
    hbind (map_err INTERNAL_SERVER_ERROR cleanup) (fun _ =>
    hbind (map_err INTERNAL_SERVER_ERROR (generate_test_data 1000%nat)) (fun _ =>
    map_err INTERNAL_SERVER_ERROR run_all_benchmarks))) in
  match steps (benchmark st) with
  | (Ok (inl r), s') =>
      (* store the results, then answer with a clone *)
      (Ok (Json r), mkAppState s' (Some r))
  | (Ok (inr c), s') => (Ok (Status c), mkAppState s' (results_slot st))
  | (Err e, s') => (Err e, mkAppState s' (results_slot st))
  | (Panic p, s') => (Panic p, mkAppState s' (results_slot st))
  end.

Definition results_handler (st : AppState W) : Response :=
  match results_slot st with
  | Some r => Json r
  | None => Status NOT_FOUND
  end.

Inductive Request := GetRoot | GetRun | GetResults.

Definition handle (st : AppState W) (req : Request)
    : Outcome Response * AppState W :=
  match req with
  | GetRoot => (Ok (Text root_text), st)
  | GetRun => run_benchmark_handler st
  | GetResults => (Ok (results_handler st), st)
  end.

(** Requests served one after the other; the log pairs each request with
    its outcome. A panicking handler kills its own task only. *)
Fixpoint serve (st : AppState W) (reqs : list Request)
    : list (Request * Outcome Response) * AppState W :=
  match reqs with
  | [] => ([], st)
  | q :: rest =>
      let '(o, st1) := handle st q in
      let '(log, st2) := serve st1 rest in ((q, o) :: log, st2)
  end.

(** [run_server]: the slot starts empty. *)
Definition initial_state (b : W) : AppState W := mkAppState b None.

End Server.

(** The snapshot of the last [/run] that answered with a snapshot. *)
Fixpoint last_run_snapshot (log : list (Request * Outcome Response))
    : option BenchmarkResults :=
  match log with
  | [] => None
  | (q, o) :: rest =>
      match last_run_snapshot rest with
      | Some r => Some r
      | None =>
          match q, o with
          | GetRun, Ok (Json r) => Some r
          | _, _ => None
          end
      end
  end.

(** ** Storage adapters

    A backend's world is the outside world [E] together with its store [D].
    The store is modelled at the level of the statements the adapters issue:
    tables of rows for SQLite and DuckDB, column families of key/value pairs
    for RocksDB. File-system and connection faults of the engines are not
    modelled: a statement fails only for a reason the data gives it. *)

Record World (E D : Type) := mkWorld { env_of : E; store : D }.
Arguments mkWorld {E D} env_of store.
Arguments env_of {E D} w.
Arguments store {E D} w.

Definition set_store {E D} (d : D) (w : World E D) : World E D :=
  mkWorld (env_of w) d.

#[global] Instance world_env {E D} `{Env E} : Env (World E D) := {
  instant_now w := instant_now (env_of w);
  utc_now w := utc_now (env_of w);
  gen_range lo hi w :=
    let '(x, e) := gen_range lo hi (env_of w) in (x, mkWorld e (store w));
  gen_bool p w := let '(b, e) := gen_bool p (env_of w) in (b, mkWorld e (store w));
  rng_u128 w := let '(x, e) := rng_u128 (env_of w) in (x, mkWorld e (store w))
}.

(** [?] on a plain result. *)
Definition obind {A B} (o : Outcome A) (k : A -> Outcome B) : Outcome B :=
  match o with
  | Ok a => k a
  | Err e => Err e
  | Panic p => Panic p
  end.

(** Tables of the SQL backends (rows as the records they were built from). *)
Record SqlDb := mkSqlDb {
  users_t : list User;
  products_t : list Product;
  orders_t : list Order
}.

Definition empty_sql : SqlDb := mkSqlDb [] [] [].

Definition delete_from_users (d : SqlDb) : SqlDb := mkSqlDb [] (products_t d) (orders_t d).
Definition delete_from_products (d : SqlDb) : SqlDb := mkSqlDb (users_t d) [] (orders_t d).
Definition delete_from_orders (d : SqlDb) : SqlDb := mkSqlDb (users_t d) (products_t d) [].

(** [for x in xs { tx.execute(INSERT ..)?; }] *)
Fixpoint insert_each {A} (ins : SqlDb -> A -> Outcome SqlDb) (xs : list A)
    (d : SqlDb) : Outcome SqlDb :=
  match xs with
  | [] => Ok d
  | x :: rest => obind (ins d x) (insert_each ins rest)
  end.

Module Sqlite.
Section Sqlite.
Context {E : Type} `{Env E}.
Abbreviation W := (World E SqlDb).

(** [id TEXT PRIMARY KEY]: an insert with an existing id is refused. *)
Definition insert_user (d : SqlDb) (u : User) : Outcome SqlDb :=
  if existsb (fun r => Z.eqb (user_id_ r) (user_id_ u)) (users_t d)
  then Err "UNIQUE constraint failed: users.id"
  else Ok (mkSqlDb (users_t d ++ [u]) (products_t d) (orders_t d)).

Definition insert_product (d : SqlDb) (p : Product) : Outcome SqlDb :=
  if existsb (fun r => Z.eqb (product_id_ r) (product_id_ p)) (products_t d)
  then Err "UNIQUE constraint failed: products.id"
  else Ok (mkSqlDb (users_t d) (products_t d ++ [p]) (orders_t d)).

Definition insert_order (d : SqlDb) (o : Order) : Outcome SqlDb :=
  if existsb (fun r => Z.eqb (order_id r) (order_id o)) (orders_t d)
  then Err "UNIQUE constraint failed: orders.id"
  else Ok (mkSqlDb (users_t d) (products_t d) (orders_t d ++ [o])).

(** [get_async_connection]: opens the file and sets PRAGMAs (journal mode,
    cache and mmap sizes, busy timeout); none of them touches table
    contents. *)
Definition get_async_connection : M W unit := ret tt.

(** [let tx = conn.transaction()?; ..; tx.commit()?]: the body runs on the
    tables; on [Err] the transaction is dropped, which rolls it back. *)
Definition transaction (body : SqlDb -> Outcome SqlDb) : M W unit :=
  fun s =>
    match body (store s) with
    | Ok d => (Ok tt, set_store d s)
    | Err e => (Err e, s)
    | Panic p => (Panic p, s)
    end.

Definition generate_test_data (count : nat) : M W unit :=
  get_async_connection ;;;
  batch <- generate_batch count ;;
  let '(users, products, orders) := batch in
  transaction (fun d =>
    obind (insert_each insert_user users d) (fun d1 =>
    obind (insert_each insert_product products d1) (fun d2 =>
    insert_each insert_order orders d2))).

Definition cleanup : M W unit :=
  get_async_connection ;;;
  transaction (fun d =>
    Ok (delete_from_users (delete_from_products (delete_from_orders d)))).

End Sqlite.
End Sqlite.

Module Duckdb.
Section Duckdb.
Context {E : Type} `{Env E}.
Abbreviation W := (World E SqlDb).

(** [id VARCHAR]: no key constraint, every insert is accepted. *)
Definition insert_user (d : SqlDb) (u : User) : Outcome SqlDb :=
  Ok (mkSqlDb (users_t d ++ [u]) (products_t d) (orders_t d)).
Definition insert_product (d : SqlDb) (p : Product) : Outcome SqlDb :=
  Ok (mkSqlDb (users_t d) (products_t d ++ [p]) (orders_t d)).
Definition insert_order (d : SqlDb) (o : Order) : Outcome SqlDb :=
  Ok (mkSqlDb (users_t d) (products_t d) (orders_t d ++ [o])).

(** [run_blocking(f)]: [f] runs on the locked connection on a blocking
    thread; statements outside a transaction take effect one by one. *)
Definition run_blocking {A} (f : SqlDb -> Outcome A * SqlDb) : M W A :=
  fun s => let '(o, d) := f (store s) in (o, set_store d s).

(** [conn.transaction()? .. tx.commit()?] inside [run_blocking]. *)
Definition in_transaction (body : SqlDb -> Outcome SqlDb) (d : SqlDb)
    : Outcome unit * SqlDb :=
  match body d with
  | Ok d' => (Ok tt, d')
  | Err e => (Err e, d)
  | Panic p => (Panic p, d)
  end.

Definition generate_test_data (count : nat) : M W unit :=
  batch <- generate_batch count ;;
  let '(users, products, orders) := batch in
  run_blocking (in_transaction (fun d =>
    obind (insert_each insert_user users d) (fun d1 =>
    obind (insert_each insert_product products d1) (fun d2 =>
    insert_each insert_order orders d2)))).

Definition cleanup : M W unit :=
  run_blocking (fun d =>
    let d1 := delete_from_orders d in
    let d2 := delete_from_products d1 in
    let d3 := delete_from_users d2 in
    (Ok tt, d3)).

End Duckdb.
End Duckdb.

(** [Uuid]'s [Display]: 32 lowercase hex digits, hyphenated 8-4-4-4-12. *)
Definition hex_digit (d : Z) : string :=
  String (Ascii.ascii_of_nat (Z.to_nat (if d <? 10 then 48 + d else 87 + d))) EmptyString.

Fixpoint hex_digits (n : nat) (x : Z) : string :=
  match n with
  | O => EmptyString
  | S k => (hex_digits k (Z.shiftr x 4) ++ hex_digit (Z.land x 15))%string
  end.

Definition uuid_to_string (u : Uuid) : string :=
  (hex_digits 8 (Z.shiftr u 96) ++ "-" ++
   hex_digits 4 (Z.shiftr u 80) ++ "-" ++
   hex_digits 4 (Z.shiftr u 64) ++ "-" ++
   hex_digits 4 (Z.shiftr u 48) ++ "-" ++
   hex_digits 12 u)%string.

Module RocksDB.

Definition USERS_CF : string := "users".
Definition PRODUCTS_CF : string := "products".
Definition ORDERS_CF : string := "orders".
Definition USERS_EMAIL_INDEX_CF : string := "users_email_index".
Definition PRODUCTS_NAME_INDEX_CF : string := "products_name_index".
Definition ORDERS_USER_ID_INDEX_CF : string := "orders_user_id_index".
Definition ORDERS_PRODUCT_ID_INDEX_CF : string := "orders_product_id_index".

Definition cf_names : list string :=
  [USERS_CF; PRODUCTS_CF; ORDERS_CF; USERS_EMAIL_INDEX_CF;
   PRODUCTS_NAME_INDEX_CF; ORDERS_USER_ID_INDEX_CF; ORDERS_PRODUCT_ID_INDEX_CF].

(** A stored value: the bincode image of a record, or the empty value of an
    index entry. *)
Inductive Value :=
| VUser (u : User)
| VProduct (p : Product)
| VOrder (o : Order)
| VEmpty.

(** A column family: its keys and values. *)
Definition ColumnFamily := list (string * Value).

(** The database: its column families by name. *)
Definition DB := list (string * ColumnFamily).

Definition cf_handle (db : DB) (name : string) : option ColumnFamily :=
  match find (fun e => String.eqb (fst e) name) db with
  | Some (_, cf) => Some cf
  | None => None
  end.

Definition unwrap {A} (o : option A) : Outcome A :=
  match o with
  | Some a => Ok a
  | None => Panic "called `Option::unwrap()` on a `None` value"
  end.

(** [RocksDBBenchmark::new]: the seven column families, opened or created. *)
Definition cfs_exist (db : DB) : bool :=
  forallb (fun n => match cf_handle db n with Some _ => true | None => false end)
    cf_names.

Inductive BatchOp :=
| PutCf (cf : string) (key : string) (v : Value)
| DeleteCf (cf : string) (key : string).

Definition update_cf (name : string) (f : ColumnFamily -> ColumnFamily) (db : DB) : DB :=
  map (fun e => if String.eqb (fst e) name then (fst e, f (snd e)) else e) db.

Definition remove_key (k : string) (cf : ColumnFamily) : ColumnFamily :=
  filter (fun kv => negb (String.eqb (fst kv) k)) cf.

Definition apply_op (db : DB) (op : BatchOp) : DB :=
  match op with
  | PutCf name k v => update_cf name (fun cf => (k, v) :: remove_key k cf) db
  | DeleteCf name k => update_cf name (remove_key k) db
  end.

(** [db.write(batch)]: the batch applied atomically, in order. *)
Definition write (db : DB) (batch : list BatchOp) : DB := fold_left apply_op batch db.

Section RocksDB.
Context {E : Type} `{Env E}.
Abbreviation W := (World E DB).

Definition user_ops (u : User) : list BatchOp :=
  [PutCf USERS_CF (uuid_to_string (user_id_ u)) (VUser u);
   PutCf USERS_EMAIL_INDEX_CF
     (user_email u ++ ":" ++ uuid_to_string (user_id_ u))%string VEmpty].

Definition product_ops (p : Product) : list BatchOp :=
  [PutCf PRODUCTS_CF (uuid_to_string (product_id_ p)) (VProduct p);
   PutCf PRODUCTS_NAME_INDEX_CF
     (product_name p ++ ":" ++ uuid_to_string (product_id_ p))%string VEmpty].

Definition order_ops (o : Order) : list BatchOp :=
  [PutCf ORDERS_CF (uuid_to_string (order_id o)) (VOrder o);
   PutCf ORDERS_USER_ID_INDEX_CF
     (uuid_to_string (user_id o) ++ ":" ++ uuid_to_string (order_id o))%string VEmpty;
   PutCf ORDERS_PRODUCT_ID_INDEX_CF
     (uuid_to_string (product_id o) ++ ":" ++ uuid_to_string (order_id o))%string VEmpty].

(** [db.cf_handle(name).unwrap()] for each name, in order. *)
Fixpoint handles (db : DB) (names : list string) : Outcome unit :=
  match names with
  | [] => Ok tt
  | n :: rest => obind (unwrap (cf_handle db n)) (fun _ => handles db rest)
  end.

Definition generate_test_data (count : nat) : M W unit :=
  batch <- generate_batch count ;;
  let '(users, products, orders) := batch in
  fun s =>
    let db := store s in
    match handles db cf_names with
    | Ok _ =>
        let ops := flat_map user_ops users ++ flat_map product_ops products
                   ++ flat_map order_ops orders in
        (Ok tt, set_store (write db ops) s)
    | Err e => (Err e, s)
    | Panic p => (Panic p, s)
    end.

(** One round of [cleanup]'s loop: iterate the family from the start,
    delete every key in one batch, write it. *)
Definition clear_cf (name : string) : M W unit :=
  fun s =>
    let db := store s in
    match cf_handle db name with
    | None => (Panic "called `Option::unwrap()` on a `None` value", s)
    | Some entries =>
        let batch := map (fun kv => DeleteCf name (fst kv)) entries in
        (Ok tt, set_store (write db batch) s)
    end.

Fixpoint clear_all (names : list string) : M W unit :=
  match names with
  | [] => ret tt
  | n :: rest => clear_cf n ;;; clear_all rest
  end.

Definition cleanup : M W unit := clear_all cf_names.

End RocksDB.
End RocksDB.

(** ** CPU-count setting ([set_cpu_count] / [get_cpu_count]) *)

Module CpuCount.

Record SqliteBenchmark := mkSqlite { sqlite_db_path : string; sqlite_cpu_count : nat }.

Definition sqlite_set_cpu_count (count : nat) (b : SqliteBenchmark) : SqliteBenchmark :=
  mkSqlite (sqlite_db_path b) count.
Definition sqlite_get_cpu_count (b : SqliteBenchmark) : nat := sqlite_cpu_count b.

Record RocksDBBenchmark := mkRocks { rocks_db_path : string; rocks_cpu_count : nat }.

Definition rocks_set_cpu_count (count : nat) (b : RocksDBBenchmark) : RocksDBBenchmark :=
  mkRocks (rocks_db_path b) count.
Definition rocks_get_cpu_count (b : RocksDBBenchmark) : nat := rocks_cpu_count b.

(** A task handed to [tokio::spawn] and detached: here the
    [spawn_blocking] that locks the connection and runs
    [SET threads TO {count}], its result dropped. *)
Inductive Task := SetThreads (count : nat).

(** What the DuckDB adapter shares with the runtime: the thread setting in
    effect on the connection and the spawned tasks not yet run. *)
Record Runtime := mkRuntime { conn_threads : nat; spawned : list Task }.

Record DuckdbBenchmark := mkDuckdb { duck_db_path : string; duck_cpu_count : nat }.

Definition duck_set_cpu_count (count : nat) (b : DuckdbBenchmark) (rt : Runtime)
    : DuckdbBenchmark * Runtime :=
  (mkDuckdb (duck_db_path b) count,
   mkRuntime (conn_threads rt) (spawned rt ++ [SetThreads count])).
Definition duck_get_cpu_count (b : DuckdbBenchmark) : nat := duck_cpu_count b.

End CpuCount.

(** ** Benchmark operations of the adapters

    The eleven operations [run_all_benchmarks] calls, as the adapters
    implement them, where the store or the failure of an operation depends
    on the data. *)

(** [for i in is { body(i)?; }] *)
Fixpoint for_each {W} (is : list nat) (body : nat -> M W unit) : M W unit :=
  match is with
  | [] => ret tt
  | i :: rest => body i ;;; for_each rest body
  end.

(** [for i in 0..count { body(i)?; }] *)
Definition for_range {W} (count : nat) (body : nat -> M W unit) : M W unit :=
  for_each (seq 0 count) body.

(** [x as i32] for an integer: the low 32 bits, read in two's complement. *)
Definition as_i32 (x : Z) : Z :=
  let m := x mod 2 ^ 32 in if m <? 2 ^ 31 then m else m - 2 ^ 32.

(** [x % y] on [f64]: the exact remainder of the division truncated toward
    zero (C's [fmod]); it has the sign of [x]. *)
Definition f64_rem (x y : float) : float :=
  match Prim2SF x, Prim2SF y with
  | S754_nan, _ | _, S754_nan | S754_infinity _, _ | _, S754_zero _ => nan
  | S754_zero _, _ | S754_finite _ _ _, S754_infinity _ => x
  | S754_finite sx mx ex, S754_finite _ my ey =>
      let e := Z.min ex ey in
      let r := (Zpos mx * 2 ^ (ex - e)) mod (Zpos my * 2 ^ (ey - e)) in
      if r =? 0 then (if sx then (-0)%float else 0%float)
      else SF2Prim (binary_normalize prec emax (if sx then - r else r) e false)
  end.

(** A statement outside a transaction: it takes effect at once, or it is
    refused and changes nothing. *)
Definition execute {E} (stmt : SqlDb -> Outcome SqlDb) : M (World E SqlDb) unit :=
  fun s =>
    match stmt (store s) with
    | Ok d => (Ok tt, set_store d s)
    | Err e => (Err e, s)
    | Panic p => (Panic p, s)
    end.

(** A query: it reads the tables. *)
Definition query {E A} (q : SqlDb -> Outcome A) : M (World E SqlDb) A :=
  fun s => (q (store s), s).

(** [SELECT id FROM users LIMIT n] and [SELECT id FROM products LIMIT n].
    Without ORDER BY the engine chooses the rows; the model takes them in
    table order. *)
Definition user_ids_limit (n : nat) (d : SqlDb) : list Uuid :=
  map user_id_ (firstn n (users_t d)).
Definition product_ids_limit (n : nat) (d : SqlDb) : list Uuid :=
  map product_id_ (firstn n (products_t d)).

(** [query_row(..)]: the first row, or [QueryReturnedNoRows]. *)
Definition query_row {A} (rows : list A) : Outcome A :=
  match rows with
  | r :: _ => Ok r
  | [] => Err "Query returned no rows"
  end.

(** [UPDATE users SET .. WHERE id = ?], [UPDATE products SET .. WHERE id = ?]:
    every row with that id. *)
Definition update_users_where (id : Uuid) (f : User -> User) (d : SqlDb) : SqlDb :=
  mkSqlDb (map (fun u => if Z.eqb (user_id_ u) id then f u else u) (users_t d))
    (products_t d) (orders_t d).
Definition update_products_where (id : Uuid) (f : Product -> Product) (d : SqlDb) : SqlDb :=
  mkSqlDb (users_t d)
    (map (fun p => if Z.eqb (product_id_ p) id then f p else p) (products_t d))
    (orders_t d).

(** [user.active = b] *)
Definition set_active (b : bool) (u : User) : User :=
  mkUser (user_id_ u) (user_name u) (user_email u) (user_created_at u) b.

Module SqliteOps.
Import Sqlite.

Definition database_name : string := "SQLite".

(** The row written by round [i] of [update_multiple_fields_one_entry]:
    [price = 10.0 + ((i as f64) % 100.0)], [stock = 100 + (i % 50)],
    [description = format!("Updated description {}", i)]. *)
Definition updated_product (i : nat) (p : Product) : Product :=
  mkProduct (product_id_ p) (product_name p)
    ("Updated description " ++ decimal (Z.of_nat i))%string
    (10 + f64_rem (int_as_f64 (Z.of_nat i)) 100)%float
    (100 + Z.of_nat (Nat.modulo i 50)) (product_created_at p).

Section SqliteOps.
Context {E : Type} `{Env E}.
Abbreviation W := (World E SqlDb).
(** The adapter's [self.cpu_count]. *)
Variable cpu : nat.

(** [conn.call(f)]: [f] runs on the connection's worker thread. A panic
    there ends the thread and drops the reply channel: the caller gets
    [ConnectionClosed]. *)
Definition call {A} (f : M W A) : M W A :=
  fun s =>
    match f s with
    | (Panic _, s') => (Err "ConnectionClosed", s')
    | r => r
    end.

Definition insert_single_many_times (count : nat) : M W BenchmarkResult :=
  get_async_connection ;;;
  measure_execution database_name "Insert Single Many Times" count cpu
    (call (for_range count (fun _ =>
       user <- lift generate_random_user ;;
       execute (fun d => insert_user d user)))).

Definition insert_many_at_once (count : nat) : M W BenchmarkResult :=
  get_async_connection ;;;
  measure_execution database_name "Insert Many At Once" count cpu
    (users <- lift (collect count generate_random_user) ;;
     call (transaction (insert_each insert_user users))).

Definition read_by_id_many_times (count : nat) : M W BenchmarkResult :=
  get_async_connection ;;;
  ids <- call (query (fun d => Ok (user_ids_limit count d))) ;;
  measure_execution database_name "Read By ID Many Times" count cpu
    (call (for_range count (fun i =>
       j <- from_outcome (rem_usize i (List.length ids)) ;;
       id <- from_outcome (index ids j) ;;
       query (fun d => Ok (find (fun u => Z.eqb (user_id_ u) id) (users_t d))) ;;;
       ret tt))).

Definition update_single_field_one_entry (count : nat) : M W BenchmarkResult :=
  get_async_connection ;;;
  user_id_arg <- call (query (fun d => query_row (user_ids_limit 1 d))) ;;
  measure_execution database_name "Update Single Field One Entry" count cpu
    (call (for_range count (fun i =>
       execute (fun d =>
         Ok (update_users_where user_id_arg
               (set_active (Nat.eqb (Nat.modulo i 2) 0)) d))))).

(** [UPDATE users SET active = true WHERE id IN (SELECT id FROM users LIMIT count)] *)
Definition update_single_field_many_entries (count : nat) : M W BenchmarkResult :=
  get_async_connection ;;;
  measure_execution database_name "Update Single Field Many Entries" count cpu
    (call (execute (fun d =>
       let ids := user_ids_limit count d in
       Ok (mkSqlDb
             (map (fun u => if existsb (Z.eqb (user_id_ u)) ids then set_active true u else u)
                (users_t d))
             (products_t d) (orders_t d))))).

Definition update_multiple_fields_one_entry (count : nat) : M W BenchmarkResult :=
  get_async_connection ;;;
  product_id_arg <- call (query (fun d => query_row (product_ids_limit 1 d))) ;;
  measure_execution database_name "Update Multiple Fields One Entry" count cpu
    (call (for_range count (fun i =>
       execute (fun d => Ok (update_products_where product_id_arg (updated_product i) d))))).

End SqliteOps.
End SqliteOps.

Module RocksDBOps.
Import RocksDB.

Definition database_name : string := "RocksDB".

(** [db.get_cf(&cf, key)] *)
Definition get_cf (cf : ColumnFamily) (k : string) : option Value :=
  match find (fun kv => String.eqb (fst kv) k) cf with
  | Some (_, v) => Some v
  | None => None
  end.

(** The same, by the family's name. *)
Definition lookup (db : DB) (name k : string) : option Value :=
  match cf_handle db name with
  | Some cf => get_cf cf k
  | None => None
  end.

(** [db.iterator_cf(&cf, IteratorMode::Start)]: the entries in ascending
    bytewise order of their keys. *)
Fixpoint insert_by_key (kv : string * Value) (l : ColumnFamily) : ColumnFamily :=
  match l with
  | [] => [kv]
  | kv' :: rest =>
      if String.leb (fst kv) (fst kv') then kv :: l else kv' :: insert_by_key kv rest
  end.

Definition iterator_start (cf : ColumnFamily) : ColumnFamily :=
  fold_right insert_by_key [] cf.

(** [for (i, result) in iter.enumerate() { if i >= count { break; }
    ids.push(key) }] *)
Definition first_keys (cf : ColumnFamily) (count : nat) : list string :=
  map fst (firstn count (iterator_start cf)).

(** [Self::deserialize]: bincode decoding of a stored record. Values are
    kept typed: a value of another kind does not decode. *)
Definition deserialize_user (v : Value) : Outcome User :=
  match v with
  | VUser u => Ok u
  | _ => Err "failed to deserialize a User"
  end.
Definition deserialize_product (v : Value) : Outcome Product :=
  match v with
  | VProduct p => Ok p
  | _ => Err "failed to deserialize a Product"
  end.

(** The record written by round [i] of [update_multiple_fields_one_entry]:
    [price = 10.0 + ((i as f64) % 100.0)], [stock = 100 + ((i as i32) % 50)],
    [description = format!("Updated description {}", i)]. *)
Definition updated_product (i : nat) (p : Product) : Product :=
  mkProduct (product_id_ p) (product_name p)
    ("Updated description " ++ decimal (Z.of_nat i))%string
    (10 + f64_rem (int_as_f64 (Z.of_nat i)) 100)%float
    (100 + Z.rem (as_i32 (Z.of_nat i)) 50) (product_created_at p).

(** [key_str.split(c)] *)
Fixpoint split_on (c : Ascii.ascii) (s : string) : list string :=
  match s with
  | EmptyString => [EmptyString]
  | String a rest =>
      let parts := split_on c rest in
      if Ascii.eqb a c then EmptyString :: parts
      else match parts with
           | p :: ps => String a p :: ps
           | [] => [String a EmptyString]
           end
  end.

(** [read_by_column_search] reads the user id out of an email-index key:
    [key_str.split(':').nth(1).unwrap_or_default()]. *)
Definition index_key_user_id (key : string) : string :=
  nth 1 (split_on ":"%char key) EmptyString.

Section RocksDBOps.
Context {E : Type} `{Env E}.
Abbreviation W := (World E DB).
(** The adapter's [self.cpu_count]. *)
Variable cpu : nat.

(** [db.cf_handle(name).unwrap()] *)
Definition handle (name : string) : M W ColumnFamily :=
  fun s => (unwrap (cf_handle (store s) name), s).

(** [db.get_cf(&cf, key)?] *)
Definition db_get (name k : string) : M W (option Value) :=
  fun s => (Ok (lookup (store s) name k), s).

(** [db.put_cf(&cf, key, value)?]: one write. [Self::serialize] of a record
    does not fail. *)
Definition db_put (name k : string) (v : Value) : M W unit :=
  fun s => (Ok tt, set_store (write (store s) [PutCf name k v]) s).

(** [db.write(batch)?] *)
Definition db_write (batch : list BatchOp) : M W unit :=
  fun s => (Ok tt, set_store (write (store s) batch) s).

Definition insert_single_many_times (count : nat) : M W BenchmarkResult :=
  measure_execution database_name "Insert Single Many Times" count cpu
    (handle USERS_CF ;;; handle USERS_EMAIL_INDEX_CF ;;;
     for_range count (fun _ =>
       user <- lift generate_random_user ;;
       let key := uuid_to_string (user_id_ user) in
       db_put USERS_CF key (VUser user) ;;;
       db_put USERS_EMAIL_INDEX_CF (user_email user ++ ":" ++ key)%string VEmpty)).

Definition insert_many_at_once (count : nat) : M W BenchmarkResult :=
  measure_execution database_name "Insert Many At Once" count cpu
    (users <- lift (collect count generate_random_user) ;;
     handle USERS_CF ;;; handle USERS_EMAIL_INDEX_CF ;;;
     db_write (flat_map user_ops users)).

Definition read_by_id_many_times (count : nat) : M W BenchmarkResult :=
  ids <- (cf <- handle USERS_CF ;; ret (first_keys cf count)) ;;
  measure_execution database_name "Read By ID Many Times" count cpu
    (handle USERS_CF ;;;
     for_range count (fun i =>
       j <- from_outcome (rem_usize i (List.length ids)) ;;
       id <- from_outcome (index ids j) ;;
       value <- db_get USERS_CF id ;;
       match value with
       | Some bytes => from_outcome (deserialize_user bytes) ;;; ret tt
       | None => ret tt
       end)).

Definition update_single_field_one_entry (count : nat) : M W BenchmarkResult :=
  user_key <- (cf <- handle USERS_CF ;;
               match iterator_start cf with
               | (k, _) :: _ => ret k
               | [] => from_outcome (Err "No users found for update")
               end) ;;
  measure_execution database_name "Update Single Field One Entry" count cpu
    (handle USERS_CF ;;;
     for_range count (fun i =>
       value <- db_get USERS_CF user_key ;;
       match value with
       | Some bytes =>
           user <- from_outcome (deserialize_user bytes) ;;
           db_put USERS_CF user_key (VUser (set_active (Nat.eqb (Nat.modulo i 2) 0) user))
       | None => ret tt
       end)).

(** The batch of [update_single_field_many_entries]: for each id, read the
    user and queue it back with [active = true]. *)
Fixpoint activate_batch (ids : list string) (batch : list BatchOp) : M W (list BatchOp) :=
  match ids with
  | [] => ret batch
  | id :: rest =>
      value <- db_get USERS_CF id ;;
      match value with
      | Some bytes =>
          user <- from_outcome (deserialize_user bytes) ;;
          activate_batch rest (batch ++ [PutCf USERS_CF id (VUser (set_active true user))])
      | None => activate_batch rest batch
      end
  end.

Definition update_single_field_many_entries (count : nat) : M W BenchmarkResult :=
  user_ids <- (cf <- handle USERS_CF ;; ret (first_keys cf count)) ;;
  measure_execution database_name "Update Single Field Many Entries" count cpu
    (handle USERS_CF ;;;
     batch <- activate_batch user_ids [] ;;
     db_write batch).

Definition update_multiple_fields_one_entry (count : nat) : M W BenchmarkResult :=
  product_key <- (cf <- handle PRODUCTS_CF ;;
                  match iterator_start cf with
                  | (k, _) :: _ => ret k
                  | [] => from_outcome (Err "No products found for update")
                  end) ;;
  measure_execution database_name "Update Multiple Fields One Entry" count cpu
    (handle PRODUCTS_CF ;;;
     for_range count (fun i =>
       value <- db_get PRODUCTS_CF product_key ;;
       match value with
       | Some bytes =>
           product <- from_outcome (deserialize_product bytes) ;;
           db_put PRODUCTS_CF product_key (VProduct (updated_product i product))
       | None => ret tt
       end)).

End RocksDBOps.
End RocksDBOps.

Module DuckdbOps.
Import Duckdb.

Definition database_name : string := "DuckDB".

Definition batch_size : nat := 200.

(** [&xs[start..end]]: panics unless [start <= end <= xs.len()]. *)
Definition slice {A} (xs : list A) (start end_ : nat) : Outcome (list A) :=
  if Nat.leb start end_ then
    if Nat.leb end_ (List.length xs) then Ok (firstn (end_ - start)%nat (skipn start xs))
    else Panic ("range end index " ++ decimal (Z.of_nat end_)
                ++ " out of range for slice of length " ++ decimal (Z.of_nat (List.length xs)))%string
  else Panic ("slice index starts at " ++ decimal (Z.of_nat start)
              ++ " but ends at " ++ decimal (Z.of_nat end_))%string.

(** In [read_many_by_ids]: [(0..num_batches).map(|i| { let start = i *
    batch_size; let end = min(start + batch_size, user_ids.len());
    user_ids[start..end].to_vec() }).collect()] *)
Fixpoint make_batches {A} (user_ids : list A) (is : list nat) : Outcome (list (list A)) :=
  match is with
  | [] => Ok []
  | i :: rest =>
      let start := (i * batch_size)%nat in
      let end_ := Nat.min (start + batch_size) (List.length user_ids) in
      obind (slice user_ids start end_) (fun b =>
      obind (make_batches user_ids rest) (fun bs => Ok (b :: bs)))
  end.

(** [SELECT * FROM users WHERE id IN (?1, ..)]; with no placeholder the
    statement is [.. IN ()], which the parser rejects. *)
Definition select_in (batch : list Uuid) (d : SqlDb) : Outcome (list User) :=
  match batch with
  | [] => Err "Parser Error: syntax error at or near )"
  | _ => Ok (filter (fun u => existsb (Z.eqb (user_id_ u)) batch) (users_t d))
  end.




Section DuckdbOps.
Context {E : Type} `{Env E}.
Abbreviation W := (World E SqlDb).
(** The adapter's [self.cpu_count]. *)
Variable cpu : nat.

(** [tokio::task::spawn_blocking(f).await?]: a panic of [f] comes back as a
    [JoinError], an error. *)
Definition spawn_blocking {A} (f : M W A) : M W A :=
  fun s =>
    match f s with
    | (Panic _, s') => (Err "task panicked", s')
    | r => r
    end.

(** [conn.transaction()? .. tx.commit()?] around a body that also draws
    from the environment: on failure the tables are rolled back. *)
Definition transaction_with (body : M W unit) : M W unit :=
  fun s =>
    match body s with
    | (Ok _, s') => (Ok tt, s')
    | (Err e, s') => (Err e, set_store (store s) s')
    | (Panic p, s') => (Panic p, set_store (store s) s')
    end.

Definition insert_single_many_times (count : nat) : M W BenchmarkResult :=
  measure_execution database_name "insert_single_many_times" count cpu
    (spawn_blocking (transaction_with (for_range count (fun _ =>
       user <- lift generate_random_user ;;
       execute (fun d => insert_user d user))))).

(** Inserts products (the other adapters insert users here); the
    [spawn_blocking] closure is the one [run_blocking] wraps. *)
Definition insert_many_at_once (count : nat) : M W BenchmarkResult :=
  measure_execution database_name "insert_many_at_once" count cpu
    (products <- lift (collect count generate_random_product) ;;
     run_blocking (in_transaction (insert_each insert_product products))).

(** [self.run_blocking(|conn| SELECT id FROM users LIMIT ?)] *)
Definition select_user_ids (count : nat) : M W (list Uuid) :=
  run_blocking (fun d => (Ok (user_ids_limit count d), d)).

Definition read_by_id_many_times (count : nat) : M W BenchmarkResult :=
  user_ids <- select_user_ids count ;;
  (if Nat.ltb (List.length user_ids) 10 then generate_test_data 100 else ret tt) ;;;
  user_ids <- (match user_ids with
               | [] => select_user_ids count
               | _ :: _ => ret user_ids
               end) ;;
  measure_execution database_name "read_by_id_many_times" count cpu
    (spawn_blocking (for_range count (fun i =>
       j <- from_outcome (rem_usize i (List.length user_ids)) ;;
       user_id_arg <- from_outcome (index user_ids j) ;;
       query (fun d =>
         query_row (filter (fun u => Z.eqb (user_id_ u) user_id_arg) (users_t d))) ;;;
       ret tt))).

Fixpoint read_batches (batches : list (list Uuid)) : M W unit :=
  match batches with
  | [] => ret tt
  | b :: rest => query (select_in b) ;;; read_batches rest
  end.

Definition read_many_by_ids (count : nat) : M W BenchmarkResult :=
  user_ids <- select_user_ids count ;;
  user_ids <- (if Nat.ltb (List.length user_ids) 100
               then generate_test_data 500 ;;; select_user_ids count
               else ret user_ids) ;;
  let num_batches := ((count + batch_size - 1) / batch_size)%nat in
  batches <- from_outcome (make_batches user_ids (seq 0 num_batches)) ;;
  measure_execution database_name "read_many_by_ids" count cpu
    (spawn_blocking (read_batches batches)).

End DuckdbOps.
End DuckdbOps.

(** The loop body of SQLite's [insert_single_many_times], on its own. *)
Section SqliteSingleBody.
Context {E : Type} `{Env E}.

Definition sqlite_single_body : nat -> M (World E SqlDb) unit :=
  fun _ => user <- lift generate_random_user ;;
           execute (fun d => Sqlite.insert_user d user).

End SqliteSingleBody.

(** ** A concrete world, to run the definitions on *)

Record TestEnv := mkTestEnv { te_clock : Z; te_seed : Z; te_entropy : list Z }.

(** Each draw advances the clock by one microsecond and steps the seed. *)
Definition te_next (e : TestEnv) : TestEnv :=
  mkTestEnv (te_clock e + 1000) ((te_seed e * 1103515245 + 12345) mod 2147483648)
    (te_entropy e).

#[global] Instance test_env : Env TestEnv := {
  instant_now := te_clock;
  utc_now := te_clock;
  gen_range lo hi e := (lo + te_seed e mod (hi - lo), te_next e);
  gen_bool p e := (Z.even (te_seed e), te_next e);
  rng_u128 e :=
    match te_entropy e with
    | x :: rest => (x, mkTestEnv (te_clock e) (te_seed e) rest)
    | [] => ((te_seed e * 0x9E3779B97F4A7C15 + te_clock e) mod 2 ^ 128, te_next e)
    end
}.

Definition test_env0 : TestEnv := mkTestEnv 0 42 [].

(** * Theorems *)

(** ** Helper lemmas *)

Lemma int_as_f64_1000_check :
  int_as_f64 1000 = 1000%float.
Proof. vm_compute. reflexivity. Qed.

Example measure_example :
  let f : M TestEnv unit := fun e => (Ok tt, mkTestEnv (te_clock e + 2500000000) (te_seed e) []) in
  match measure_execution "SQLite" "t" 500 1 f test_env0 with
  | (Ok r, _) => duration_ms r = 2500 /\ operations_per_second r = 200%float
  | _ => False
  end.
Proof. vm_compute. split; reflexivity. Qed.

(** ** C1: the measurement engine *)

(** C1: a [BenchmarkResult] produced by [measure_execution] for [n]
    operations carries [n], a [duration_ms] that is a non-negative [u64],
    and [operations_per_second] equal to [n as f64] when [duration_ms = 0]
    and to [n as f64 / (duration_ms as f64 / 1000.0)] when [duration_ms > 0]. *)
Theorem measure_execution_throughput {W : Type} `{Env W}
    (name tn : string) (n cpu : nat) (f : M W unit) (s : W)
    (r : BenchmarkResult) (s' : W) :
  measure_execution name tn n cpu f s = (Ok r, s') ->
  operations r = n /\
  0 <= duration_ms r < 2 ^ 64 /\
  (duration_ms r = 0 -> operations_per_second r = int_as_f64 (Z.of_nat n)) /\
  (0 < duration_ms r ->
   operations_per_second r =
     (int_as_f64 (Z.of_nat n) / (int_as_f64 (duration_ms r) / 1000))%float).
Proof.
  unfold measure_execution, bind, lift, ret.
  destruct (f s) as [[u | e | p] s1]; intro Hrun; inversion Hrun; subst; clear Hrun.
  cbn [operations duration_ms operations_per_second].
  match goal with |- context [as_u64 ?x] => set (d := as_u64 x) end.
  assert (Hd : 0 <= d < 2 ^ 64)
    by (unfold d, as_u64, u64_modulus; apply Z.mod_pos_bound; lia).
  clearbody d.
  repeat split; try lia.
  - intro Hz. rewrite Hz. reflexivity.
  - intro Hpos. apply Z.ltb_lt in Hpos. rewrite Hpos. reflexivity.
Qed.

Definition sample_work : M TestEnv unit :=
  fun e => (Ok tt, mkTestEnv (te_clock e + 2500000000) (te_seed e) []).

Definition sample_result : BenchmarkResult :=
  {| br_database := "SQLite"; test_name := "Insert Single Many Times";
     operations := 500; duration_ms := 2500;
     operations_per_second := 200%float; cpu_count := 1;
     br_timestamp := 2500000000 |}.

Lemma measure_execution_throughput_witness :
  measure_execution "SQLite" "Insert Single Many Times" 500 1 sample_work test_env0
    = (Ok sample_result, mkTestEnv 2500000000 42 []) /\
  (operations sample_result = 500%nat /\
   0 <= duration_ms sample_result < 2 ^ 64 /\
   (duration_ms sample_result = 0 ->
    operations_per_second sample_result = int_as_f64 (Z.of_nat 500)) /\
   (0 < duration_ms sample_result ->
    operations_per_second sample_result =
      (int_as_f64 (Z.of_nat 500) / (int_as_f64 (duration_ms sample_result) / 1000))%float)).
Proof.
  assert (Hrun : measure_execution "SQLite" "Insert Single Many Times" 500 1
                   sample_work test_env0
                 = (Ok sample_result, mkTestEnv 2500000000 42 []))
    by (vm_compute; reflexivity).
  split; [exact Hrun |].
  exact (measure_execution_throughput _ _ _ _ _ _ _ _ Hrun).
Defined.

(** ** Monad lemmas *)

Lemma bind_ok_inv {W A B} (m : M W A) (k : A -> M W B) s b s' :
  bind m k s = (Ok b, s') -> exists a s1, m s = (Ok a, s1) /\ k a s1 = (Ok b, s').
Proof.
  unfold bind. destruct (m s) as [[a | e | p] s1]; intro Hb; try discriminate.
  eauto.
Qed.

Lemma bind_ok_eq {W A B} (m : M W A) (k : A -> M W B) s a s1 :
  m s = (Ok a, s1) -> bind m k s = k a s1.
Proof. unfold bind. intros ->. reflexivity. Qed.

Lemma runs_plan_length {W} `{DatabaseBenchmark W} plan s rs s' :
  runs_plan plan s rs s' -> List.length rs = List.length plan.
Proof. induction 1; cbn; auto. Qed.

Ltac peel_binds H :=
  repeat (apply bind_ok_inv in H; destruct H as (? & ? & ? & H)).

(** ** C2: run_all_benchmarks *)

(** C2: for every backend, [run_all_benchmarks] succeeds exactly when the
    eleven operations, invoked one after the other in the canonical order
    with the fixed counts of [canonical_plan] (the same table for every
    backend), all succeed; its snapshot then holds exactly their eleven
    results in that order, under the backend's name. If one of them fails,
    no snapshot is produced. *)
Theorem run_all_benchmarks_canonical {W : Type} `{Env W} `{DatabaseBenchmark W}
    (s : W) (res : BenchmarkResults) (s' : W) :
  run_all_benchmarks s = (Ok res, s') <->
  exists rs,
    runs_plan canonical_plan s rs s' /\ List.length rs = 11%nat /\
    res = {| database := database_name; results := rs; timestamp := utc_now s' |}.
Proof.
  split.
  - intro Hrun. unfold run_all_benchmarks in Hrun.
    peel_binds Hrun.
    unfold lift, ret in *.
    repeat match goal with
           | E : (Ok _, _) = (Ok _, _) |- _ => inversion E; subst; clear E
           end.
    eexists. split.
    + repeat (eapply runs_cons; [cbn [dispatch]; eassumption |]).
      apply runs_nil.
    + split; reflexivity.
  - intros (rs & Hplan & _ & ->).
    unfold canonical_plan in Hplan.
    repeat match goal with
           | Hp : runs_plan (_ :: _) _ _ _ |- _ => inversion Hp; subst; clear Hp
           | Hp : runs_plan [] _ _ _ |- _ => inversion Hp; subst; clear Hp
           end.
    cbn [dispatch] in *.
    unfold run_all_benchmarks.
    repeat (erewrite bind_ok_eq; [| eassumption]).
    reflexivity.
Qed.

(** ** C3: the Run handler *)

Ltac rewrite_known :=
  repeat match goal with
         | H : (_, _) = (_, _) |- _ => injection H; clear H; intros; subst
         | H : Ok _ = Ok _ |- _ => injection H; clear H; intros; subst
         | H : ?a = _, E : ?a = _ |- _ => rewrite E in H
         end.

(** C3: the Run handler runs [init], [cleanup], [generate_test_data 1000]
    and [run_all_benchmarks], each from the state the previous one left.
    When one of them fails (returns [Err]), the handler answers 500 and the
    slot keeps its previous content; only when all four succeed is the slot
    overwritten, with the snapshot the handler returns. In every case
    (a panic included) the slot either is unchanged or holds the returned
    snapshot. *)
Theorem run_benchmark_handler_steps {W : Type} `{Env W} `{DatabaseBenchmark W}
    (st : AppState W) :
  let '(resp, st') := run_benchmark_handler st in
  (forall e s1,
     init (benchmark st) = (Err e, s1) ->
     resp = Ok (Status INTERNAL_SERVER_ERROR) /\ st' = mkAppState s1 (results_slot st)) /\
  (forall s1 e s2,
     init (benchmark st) = (Ok tt, s1) -> cleanup s1 = (Err e, s2) ->
     resp = Ok (Status INTERNAL_SERVER_ERROR) /\ st' = mkAppState s2 (results_slot st)) /\
  (forall s1 s2 e s3,
     init (benchmark st) = (Ok tt, s1) -> cleanup s1 = (Ok tt, s2) ->
     generate_test_data 1000 s2 = (Err e, s3) ->
     resp = Ok (Status INTERNAL_SERVER_ERROR) /\ st' = mkAppState s3 (results_slot st)) /\
  (forall s1 s2 s3 e s4,
     init (benchmark st) = (Ok tt, s1) -> cleanup s1 = (Ok tt, s2) ->
     generate_test_data 1000 s2 = (Ok tt, s3) -> run_all_benchmarks s3 = (Err e, s4) ->
     resp = Ok (Status INTERNAL_SERVER_ERROR) /\ st' = mkAppState s4 (results_slot st)) /\
  (forall s1 s2 s3 r s4,
     init (benchmark st) = (Ok tt, s1) -> cleanup s1 = (Ok tt, s2) ->
     generate_test_data 1000 s2 = (Ok tt, s3) -> run_all_benchmarks s3 = (Ok r, s4) ->
     resp = Ok (Json r) /\ st' = mkAppState s4 (Some r)) /\
  (results_slot st' = results_slot st \/
   exists r, resp = Ok (Json r) /\ results_slot st' = Some r).
Proof.
  unfold run_benchmark_handler, hbind, map_err.
  destruct (init (benchmark st)) as [[[] | e1 | p1] s1] eqn:E1;
  try destruct (cleanup s1) as [[[] | e2 | p2] s2] eqn:E2;
  try destruct (generate_test_data 1000 s2) as [[[] | e3 | p3] s3] eqn:E3;
  try destruct (run_all_benchmarks s3) as [[r | e4 | p4] s4] eqn:E4;
  repeat split; intros; rewrite_known; try discriminate;
    try (split; reflexivity); eauto.
Qed.

(** ** C5: the Results handler *)

Lemma run_benchmark_handler_slot {W : Type} `{Env W} `{DatabaseBenchmark W}
    (st : AppState W) :
  results_slot (snd (run_benchmark_handler st)) =
  match fst (run_benchmark_handler st) with
  | Ok (Json r) => Some r
  | _ => results_slot st
  end.
Proof.
  unfold run_benchmark_handler.
  destruct (hbind _ _ (benchmark st)) as [[[r | c] | e | p] s'];
    reflexivity.
Qed.

Lemma handle_slot {W : Type} `{Env W} `{DatabaseBenchmark W}
    (st : AppState W) (q : Request) :
  results_slot (snd (handle st q)) =
  match q, fst (handle st q) with
  | GetRun, Ok (Json r) => Some r
  | _, _ => results_slot st
  end.
Proof.
  destruct q; cbn [handle fst snd]; try reflexivity.
  apply run_benchmark_handler_slot.
Qed.

Lemma serve_results {W : Type} `{Env W} `{DatabaseBenchmark W}
    (reqs : list Request) (st : AppState W) :
  results_handler (snd (serve st reqs)) =
  match last_run_snapshot (fst (serve st reqs)) with
  | Some r => Json r
  | None => results_handler st
  end.
Proof.
  revert st. induction reqs as [| q rest IH]; intro st; [reflexivity |].
  cbn [serve].
  pose proof (handle_slot st q) as Hslot.
  destruct (handle st q) as [o st1] eqn:Eh.
  cbn [fst snd] in Hslot.
  specialize (IH st1).
  destruct (serve st1 rest) as [log st2] eqn:Es.
  cbn [fst snd last_run_snapshot] in *.
  rewrite IH.
  destruct (last_run_snapshot log) as [r |]; [reflexivity |].
  unfold results_handler. rewrite Hslot.
  destruct q; rewrite ?Eh; cbn [fst]; try reflexivity.
  destruct o as [[r | c | t] | e | p]; reflexivity.
Qed.

(** C5: the Results handler answers 404 on an empty slot and the stored
    snapshot otherwise; from server start, after any sequence of requests,
    it answers 404 when no Run has returned a snapshot, and otherwise the
    snapshot of the last Run that did. *)
Theorem results_handler_slot {W : Type} `{Env W} `{DatabaseBenchmark W} :
  (forall st : AppState W, results_slot st = None ->
     handle st GetResults = (Ok (Status NOT_FOUND), st)) /\
  (forall (st : AppState W) r, results_slot st = Some r ->
     handle st GetResults = (Ok (Json r), st)) /\
  (forall (b : W) (reqs : list Request),
     let '(log, st') := serve (initial_state b) reqs in
     results_handler st' =
       match last_run_snapshot log with
       | Some r => Json r
       | None => Status NOT_FOUND
       end).
Proof.
  split; [| split].
  - intros st Hs. cbn [handle]. unfold results_handler. rewrite Hs. reflexivity.
  - intros st r Hs. cbn [handle]. unfold results_handler. rewrite Hs. reflexivity.
  - intros b reqs.
    pose proof (serve_results reqs (initial_state b)) as Hr.
    destruct (serve (initial_state b) reqs) as [log st'].
    exact Hr.
Qed.

(** ** C4: references of the generated orders *)

Lemma collect_length {W A} (n : nat) (g : W -> A * W) (s : W) :
  List.length (fst (collect n g s)) = n.
Proof.
  revert s. induction n as [| n IH]; intro s; [reflexivity |].
  cbn [collect]. destruct (g s) as [a s1].
  specialize (IH s1). destruct (collect n g s1) as [rest s2].
  cbn in *. now rewrite IH.
Qed.

Lemma generate_random_order_refs {W} `{Env W} (u p : Uuid) (s : W) :
  user_id (fst (generate_random_order u p s)) = u /\
  product_id (fst (generate_random_order u p s)) = p.
Proof.
  unfold generate_random_order, new_v4.
  destruct (gen_range 1 10 s) as [q s1].
  destruct (gen_range 1000 10000 s1) as [c s2].
  destruct (rng_u128 s2) as [x s3].
  split; reflexivity.
Qed.

Lemma nth_error_mod_some {A} (l : list A) (i : nat) :
  l <> [] -> exists x, nth_error l (Nat.modulo i (List.length l)) = Some x.
Proof.
  intro Hl.
  assert (Hlen : List.length l <> 0%nat) by (destruct l; [contradiction | discriminate]).
  destruct (nth_error l (Nat.modulo i (List.length l))) as [x |] eqn:E; [eauto |].
  apply nth_error_None in E.
  pose proof (Nat.mod_upper_bound i (List.length l) Hlen). lia.
Qed.

Lemma order_loop_spec {W} `{Env W} (users : list User) (products : list Product)
    (is : list nat) (acc : list Order) (s : W) :
  users <> [] -> products <> [] ->
  exists os s',
    order_loop users products is acc s = (Ok (acc ++ os), s') /\
    List.length os = List.length is /\
    forall j o, nth_error os j = Some o ->
      exists i u p,
        nth_error is j = Some i /\
        nth_error users (Nat.modulo i (List.length users)) = Some u /\
        nth_error products (Nat.modulo i (List.length products)) = Some p /\
        user_id o = user_id_ u /\ product_id o = product_id_ p.
Proof.
  intros Hu Hp. revert acc s.
  induction is as [| i rest IH]; intros acc s.
  - exists [], s. rewrite app_nil_r. split; [reflexivity | split; [reflexivity |]].
    intros j o Hj. rewrite nth_error_nil in Hj. discriminate.
  - destruct (nth_error_mod_some users i Hu) as [u Eu].
    destruct (nth_error_mod_some products i Hp) as [p Ep].
    assert (Lu : Nat.eqb (List.length users) 0 = false)
      by (destruct users; [contradiction | reflexivity]).
    assert (Lp : Nat.eqb (List.length products) 0 = false)
      by (destruct products; [contradiction | reflexivity]).
    pose proof (generate_random_order_refs (user_id_ u) (product_id_ p) s) as [Ru Rp].
    destruct (generate_random_order (user_id_ u) (product_id_ p) s) as [o s1] eqn:Eo.
    cbn [fst] in Ru, Rp.
    destruct (IH (acc ++ [o]) s1) as (os & s' & Hrun & Hlen & Hrefs).
    exists (o :: os), s'. split; [| split].
    + cbn [order_loop]. unfold bind, from_outcome, rem_usize, index, lift.
      rewrite Lu, Lp, Eu, Ep, Eo, Hrun, <- app_assoc. reflexivity.
    + cbn. now rewrite Hlen.
    + intros [| j] o' Hj; cbn in Hj.
      * injection Hj as <-. exists i, u, p. auto.
      * exact (Hrefs j o' Hj).
Qed.

(** C4: a batch of [generate_test_data(count)] (the text shared by the
    SQLite, DuckDB and RocksDB adapters) draws [count] users, then [count]
    products, then [count] orders, and the order at index [i] references the
    user and the product at index [i mod count] of the same batch. *)
Theorem generate_batch_references {W : Type} `{Env W} (count : nat) (s : W) :
  exists users products orders s',
    generate_batch count s = (Ok (users, products, orders), s') /\
    fst (collect count generate_random_user s) = users /\
    List.length users = count /\ List.length products = count /\
    List.length orders = count /\
    forall i o, nth_error orders i = Some o ->
      exists u p,
        nth_error users (Nat.modulo i count) = Some u /\
        nth_error products (Nat.modulo i count) = Some p /\
        user_id o = user_id_ u /\ product_id o = product_id_ p.
Proof.
  pose proof (collect_length count generate_random_user s) as Lu.
  destruct (collect count generate_random_user s) as [users s1] eqn:Eu.
  pose proof (collect_length count generate_random_product s1) as Lp.
  destruct (collect count generate_random_product s1) as [products s2] eqn:Ep.
  cbn [fst] in Lu, Lp.
  destruct count as [| n].
  - exists users, products, [], s2.
    unfold generate_batch, bind, lift. rewrite Eu, Ep.
    repeat split; auto.
    intros i o Hi. rewrite nth_error_nil in Hi. discriminate.
  - assert (Hu : users <> []) by (intros ->; discriminate).
    assert (Hp : products <> []) by (intros ->; discriminate).
    destruct (order_loop_spec users products (seq 0 (S n)) [] s2 Hu Hp)
      as (os & s' & Hrun & Hlen & Hrefs).
    exists users, products, os, s'.
    unfold generate_batch, bind, lift. rewrite Eu, Ep, Hrun.
    split; [reflexivity |].
    rewrite length_seq in Hlen.
    repeat split; auto.
    intros i o Hi.
    destruct (Hrefs i o Hi) as (k & u & p & Hk & Hu' & Hp' & Ru & Rp).
    rewrite nth_error_seq in Hk.
    destruct (Nat.ltb i (S n)); [| discriminate].
    injection Hk as <-. rewrite Lu in Hu'. rewrite Lp in Hp'.
    exists u, p. cbn [Nat.add] in *. auto.
Qed.

(** ** C10: generating an empty batch *)

Lemma set_store_same {E D} (s : World E D) : set_store (store s) s = s.
Proof. destruct s. reflexivity. Qed.

Lemma rocks_handles_ok (db : RocksDB.DB) (names : list string) :
  forallb (fun n => match RocksDB.cf_handle db n with Some _ => true | None => false end)
    names = true ->
  RocksDB.handles db names = Ok tt.
Proof.
  induction names as [| n rest IH]; cbn; [reflexivity |].
  destruct (RocksDB.cf_handle db n); cbn; [| discriminate].
  exact IH.
Qed.

Lemma generate_batch_zero {W} `{Env W} (s : W) :
  generate_batch 0 s = (Ok ([], [], []), s).
Proof. reflexivity. Qed.

(** C10: [generate_test_data(0)] draws nothing, never reaches the
    [users[i % users.len()]] indexing (no panic), succeeds and leaves the
    tables of SQLite and DuckDB and the column families of RocksDB as they
    were (RocksDB: in a database whose seven column families exist, as
    [RocksDBBenchmark::new] makes them). *)
Theorem generate_test_data_zero {E : Type} `{Env E} :
  (forall s : E, generate_batch 0 s = (Ok ([], [], []), s)) /\
  (forall s : World E SqlDb, Sqlite.generate_test_data 0 s = (Ok tt, s)) /\
  (forall s : World E SqlDb, Duckdb.generate_test_data 0 s = (Ok tt, s)) /\
  (forall s : World E RocksDB.DB,
     RocksDB.cfs_exist (store s) = true ->
     RocksDB.generate_test_data 0 s = (Ok tt, s)).
Proof.
  split; [| split; [| split]].
  - intro s. apply generate_batch_zero.
  - intro s. unfold Sqlite.generate_test_data, Sqlite.get_async_connection, bind, ret.
    rewrite generate_batch_zero. cbn.
    unfold Sqlite.transaction. cbn. now rewrite set_store_same.
  - intro s. unfold Duckdb.generate_test_data, bind.
    rewrite generate_batch_zero. cbn.
    unfold Duckdb.run_blocking, Duckdb.in_transaction. cbn.
    now rewrite set_store_same.
  - intros s Hcf. unfold RocksDB.generate_test_data, bind.
    rewrite generate_batch_zero. cbn beta iota.
    rewrite (rocks_handles_ok _ _ Hcf). cbn.
    now rewrite set_store_same.
Qed.

(** ** C7: cleanup *)

Module RocksDBFacts.
Import RocksDB.

Lemma cf_handle_update (name n : string) (f : ColumnFamily -> ColumnFamily) (db : DB) :
  cf_handle (update_cf name f db) n =
  if String.eqb n name then option_map f (cf_handle db n) else cf_handle db n.
Proof.
  unfold cf_handle, update_cf.
  induction db as [| [m cf] rest IH]; cbn.
  - destruct (String.eqb n name); reflexivity.
  - destruct (String.eqb m name) eqn:Emn; cbn.
    + apply String.eqb_eq in Emn. subst m.
      destruct (String.eqb name n) eqn:Enn.
      * apply String.eqb_eq in Enn. subst n. rewrite String.eqb_refl. reflexivity.
      * rewrite IH. rewrite String.eqb_sym, Enn. reflexivity.
    + destruct (String.eqb m n) eqn:Emn'.
      * apply String.eqb_eq in Emn'. subst m. rewrite Emn. reflexivity.
      * exact IH.
Qed.

Lemma write_deletes (name n : string) (keys : list string) (db : DB) :
  cf_handle (write db (map (fun k => DeleteCf name k) keys)) n =
  if String.eqb n name
  then option_map (fun cf => fold_left (fun c k => remove_key k c) keys cf) (cf_handle db n)
  else cf_handle db n.
Proof.
  unfold write. revert db.
  induction keys as [| k rest IH]; intro db; cbn.
  - destruct (String.eqb n name); [destruct (cf_handle db n) |]; reflexivity.
  - rewrite IH. cbn [apply_op]. rewrite cf_handle_update.
    destruct (String.eqb n name); [| reflexivity].
    destruct (cf_handle db n); reflexivity.
Qed.

Lemma remove_keys_all (keys : list string) (cf : ColumnFamily) :
  (forall kv, In kv cf -> In (fst kv) keys) ->
  fold_left (fun c k => remove_key k c) keys cf = [].
Proof.
  revert cf. induction keys as [| k rest IH]; intros cf Hcov; cbn.
  - destruct cf as [| kv cf]; [reflexivity |].
    exfalso. exact (Hcov kv (or_introl eq_refl)).
  - apply IH. intros kv Hin. unfold remove_key in Hin.
    apply filter_In in Hin as [Hin Hne].
    destruct (Hcov kv Hin) as [Hk | Hk]; [| exact Hk].
    subst k. rewrite String.eqb_refl in Hne. discriminate.
Qed.

Section Clear.
Context {E : Type} `{Env E}.

Lemma clear_cf_spec (name : string) (s : World E DB) (entries : ColumnFamily) :
  cf_handle (store s) name = Some entries ->
  exists db',
    clear_cf name s = (Ok tt, set_store db' s) /\
    forall n, cf_handle db' n =
              if String.eqb n name then Some [] else cf_handle (store s) n.
Proof.
  intro Hcf. unfold clear_cf. rewrite Hcf.
  eexists. split; [reflexivity |].
  intro n.
  replace (map (fun kv => DeleteCf name (fst kv)) entries)
    with (map (fun k => DeleteCf name k) (map fst entries))
    by (rewrite map_map; reflexivity).
  rewrite write_deletes.
  destruct (String.eqb n name) eqn:En; [| reflexivity].
  apply String.eqb_eq in En. subst n. rewrite Hcf. cbn.
  rewrite remove_keys_all; [reflexivity |].
  intros kv Hin. apply in_map. exact Hin.
Qed.

Lemma clear_all_spec (names : list string) (s : World E DB) :
  (forall n, In n names -> cf_handle (store s) n <> None) ->
  exists db',
    clear_all names s = (Ok tt, set_store db' s) /\
    forall n, cf_handle db' n =
              if existsb (String.eqb n) names then Some [] else cf_handle (store s) n.
Proof.
  revert s. induction names as [| m rest IH]; intros s Hex.
  - exists (store s). split; [cbn; unfold ret; now rewrite set_store_same |].
    intro n. reflexivity.
  - destruct (cf_handle (store s) m) as [entries |] eqn:Em;
      [| exfalso; exact (Hex m (or_introl eq_refl) Em)].
    destruct (clear_cf_spec m s entries Em) as (db1 & Hc & Hdb1).
    destruct (IH (set_store db1 s)) as (db' & Hr & Hdb').
    + intros n Hn. cbn [store set_store]. rewrite Hdb1.
      destruct (String.eqb n m); [discriminate |].
      exact (Hex n (or_intror Hn)).
    + exists db'. split.
      * cbn [clear_all]. rewrite (bind_ok_eq _ _ _ _ _ Hc), Hr. reflexivity.
      * intro n. rewrite Hdb'. cbn [store set_store existsb]. rewrite Hdb1.
        destruct (String.eqb n m); cbn; [destruct (existsb (String.eqb n) rest) |]; reflexivity.
Qed.

End Clear.
End RocksDBFacts.

(** C7: every adapter's [cleanup] succeeds on any store, whatever it holds
    and also when it is already empty, and leaves no data: SQLite and DuckDB
    empty their three tables (and touch nothing else); RocksDB empties its
    seven column families (records and indexes), in a database where they
    exist as [RocksDBBenchmark::new] makes them. *)
Theorem cleanup_removes_all {E : Type} `{Env E} :
  (forall s : World E SqlDb, Sqlite.cleanup s = (Ok tt, set_store empty_sql s)) /\
  (forall s : World E SqlDb, Duckdb.cleanup s = (Ok tt, set_store empty_sql s)) /\
  (forall s : World E RocksDB.DB,
     RocksDB.cfs_exist (store s) = true ->
     exists db',
       RocksDB.cleanup s = (Ok tt, set_store db' s) /\
       forall n, In n RocksDB.cf_names -> RocksDB.cf_handle db' n = Some []).
Proof.
  split; [| split].
  - intro s. reflexivity.
  - intro s. reflexivity.
  - intros s Hcf.
    destruct (RocksDBFacts.clear_all_spec RocksDB.cf_names s) as (db' & Hr & Hdb').
    + intros n Hn. unfold RocksDB.cfs_exist in Hcf.
      rewrite forallb_forall in Hcf. specialize (Hcf n Hn).
      destruct (RocksDB.cf_handle (store s) n); [discriminate | discriminate Hcf].
    + exists db'. split; [exact Hr |].
      intros n Hn. rewrite Hdb'.
      replace (existsb (String.eqb n) RocksDB.cf_names) with true; [reflexivity |].
      symmetry. apply existsb_exists. exists n. split; [exact Hn | apply String.eqb_refl].
Qed.

(** ** C6: ranges of the generated values *)

(** Every price the generator can form, checked: [cents / 100.0] for
    [cents] in [100..10000) lies in [[1.0, 100.0)], and in [[10.0, 100.0)]
    for [cents] in [1000..10000). *)
Definition price_in (lo hi : float) (c : Z) : bool :=
  let p := (int_as_f64 c / 100)%float in
  (lo <=? p)%float && (p <? hi)%float.

Lemma product_prices_checked :
  forallb (fun k => price_in 1 100 (Z.of_nat k)) (seq 100 9900) = true.
Proof. vm_compute. reflexivity. Qed.

Lemma order_prices_checked :
  forallb (fun k => price_in 10 100 (Z.of_nat k)) (seq 1000 9000) = true.
Proof. vm_compute. reflexivity. Qed.

Lemma price_in_range (lo hi : float) (a n : nat) (za zn c : Z) :
  forallb (fun k => price_in lo hi (Z.of_nat k)) (seq a n) = true ->
  Z.of_nat a = za -> Z.of_nat n = zn ->
  za <= c < za + zn ->
  (lo <=? (int_as_f64 c / 100))%float = true /\ ((int_as_f64 c / 100) <? hi)%float = true.
Proof.
  intros Hall <- <- Hc.
  rewrite forallb_forall in Hall.
  specialize (Hall (Z.to_nat c)).
  rewrite Z2Nat.id in Hall by lia.
  unfold price_in in Hall. apply andb_prop, Hall, in_seq. lia.
Qed.

(** C6: assuming [gen_range(lo..hi)] returns a value in [[lo, hi)] (the
    contract of [rand]), a generated product's price is [cents as f64 / 100.0]
    for an integer [cents] in [[100, 10000)], hence in [[1.0, 100.0)], and its
    stock is in [[0, 1000)]; a generated order carries the user and product
    ids it was given, a quantity in [[1, 10)], and a total price equal to
    [unit * quantity as f64] where the unit price is [c as f64 / 100.0] for an
    integer [c] in [[1000, 10000)], hence in [[10.0, 100.0)]. *)
Theorem generated_values_in_range {W : Type} `{Env W}
    (Hrange : forall lo hi s x s', lo < hi -> gen_range lo hi s = (x, s') -> lo <= x < hi) :
  (forall s : W,
     let p := fst (generate_random_product s) in
     (exists cents, 100 <= cents < 10000 /\ price p = (int_as_f64 cents / 100)%float) /\
     (1 <=? price p)%float = true /\ (price p <? 100)%float = true /\
     0 <= stock p < 1000) /\
  (forall (u pid : Uuid) (s : W),
     let o := fst (generate_random_order u pid s) in
     user_id o = u /\ product_id o = pid /\ 1 <= quantity o < 10 /\
     exists c, 1000 <= c < 10000 /\
       (10 <=? (int_as_f64 c / 100))%float = true /\
       ((int_as_f64 c / 100) <? 100)%float = true /\
       total_price o = (int_as_f64 c / 100 * int_as_f64 (quantity o))%float).
Proof.
  split.
  - intro s. unfold generate_random_product, new_v4.
    destruct (rng_u128 s) as [x s1].
    destruct (gen_range 1000 9999 s1) as [n1 s2].
    destruct (gen_range 1000 9999 s2) as [n2 s3].
    destruct (gen_range 100 10000 s3) as [cents s4] eqn:Ec.
    destruct (gen_range 0 1000 s4) as [st s5] eqn:Es.
    apply Hrange in Ec; [| lia]. apply Hrange in Es; [| lia].
    cbn [fst price stock].
    destruct (price_in_range 1 100 100 9900 100 9900 cents product_prices_checked)
      as [L U]; [vm_compute; reflexivity | vm_compute; reflexivity | lia |].
    eauto 7.
  - intros u pid s. unfold generate_random_order, new_v4.
    destruct (gen_range 1 10 s) as [q s1] eqn:Eq.
    destruct (gen_range 1000 10000 s1) as [c s2] eqn:Ec.
    destruct (rng_u128 s2) as [x s3].
    apply Hrange in Eq; [| lia]. apply Hrange in Ec; [| lia].
    cbn [fst user_id product_id quantity total_price].
    destruct (price_in_range 10 100 1000 9000 1000 9000 c order_prices_checked)
      as [L U]; [vm_compute; reflexivity | vm_compute; reflexivity | lia |].
    repeat split; try reflexivity; try lia.
    exists c. auto.
Qed.

Lemma test_env_gen_range :
  forall lo hi (s : TestEnv) x s', lo < hi -> gen_range lo hi s = (x, s') -> lo <= x < hi.
Proof.
  intros lo hi s x s' Hlt Hg. cbn in Hg. injection Hg as <- _.
  pose proof (Z.mod_pos_bound (te_seed s) (hi - lo)). lia.
Qed.

Lemma generated_values_in_range_witness :
  (forall s : TestEnv,
     let p := fst (generate_random_product s) in
     (exists cents, 100 <= cents < 10000 /\ price p = (int_as_f64 cents / 100)%float) /\
     (1 <=? price p)%float = true /\ (price p <? 100)%float = true /\
     0 <= stock p < 1000) /\
  (forall (u pid : Uuid) (s : TestEnv),
     let o := fst (generate_random_order u pid s) in
     user_id o = u /\ product_id o = pid /\ 1 <= quantity o < 10 /\
     exists c, 1000 <= c < 10000 /\
       (10 <=? (int_as_f64 c / 100))%float = true /\
       ((int_as_f64 c / 100) <? 100)%float = true /\
       total_price o = (int_as_f64 c / 100 * int_as_f64 (quantity o))%float).
Proof.
  apply (generated_values_in_range (W := TestEnv)).
  exact test_env_gen_range.
Defined.

(** ** C8: identifiers *)

Lemma uuid_v4_mask_split : uuid_v4_mask = Z.lor uuid_v4_free uuid_v4_bits.
Proof. reflexivity. Qed.

Lemma uuid_v4_free_bits_disjoint : Z.land uuid_v4_free uuid_v4_bits = 0.
Proof. reflexivity. Qed.

Lemma uuid_from_u128_free (x : Z) :
  uuid_from_u128 x = Z.lor (Z.land x uuid_v4_free) uuid_v4_bits.
Proof.
  unfold uuid_from_u128. rewrite uuid_v4_mask_split.
  apply Z.bits_inj'. intros i _.
  rewrite !Z.lor_spec, !Z.land_spec, Z.lor_spec.
  destruct (Z.testbit x i), (Z.testbit uuid_v4_free i), (Z.testbit uuid_v4_bits i);
    reflexivity.
Qed.

Lemma uuid_from_u128_land_free (x : Z) :
  Z.land (uuid_from_u128 x) uuid_v4_free = Z.land x uuid_v4_free.
Proof.
  rewrite uuid_from_u128_free.
  apply Z.bits_inj'. intros i _.
  pose proof (f_equal (fun z => Z.testbit z i) uuid_v4_free_bits_disjoint) as Hd.
  cbn beta in Hd. rewrite Z.land_spec, Z.bits_0 in Hd.
  rewrite !Z.land_spec, Z.lor_spec, Z.land_spec.
  destruct (Z.testbit x i), (Z.testbit uuid_v4_free i), (Z.testbit uuid_v4_bits i);
    cbn in *; congruence.
Qed.

(** The user ids of two batches of 1000, generated one after the other. *)
Definition two_batch_user_ids (e : TestEnv) : list Uuid :=
  match generate_batch 1000 e with
  | (Ok (us1, _, _), e1) =>
      match generate_batch 1000 e1 with
      | (Ok (us2, _, _), _) => map user_id_ (us1 ++ us2)
      | _ => []
      end
  | _ => []
  end.

(** An entropy source whose first two 128-bit draws agree. *)
Definition repeating_entropy : TestEnv := mkTestEnv 0 42 [7; 7].

(** C8 (counterexample): nothing in the generator rules out a repeated
    identifier. When the random source repeats a draw, two batches of 1000
    users generated one after the other hold 2000 user ids that are not all
    distinct (the first two coincide). *)
Lemma two_batches_ids_not_distinct :
  List.length (two_batch_user_ids repeating_entropy) = 2000%nat /\
  ~ NoDup (two_batch_user_ids repeating_entropy).
Proof.
  assert (Hhead : exists rest,
             two_batch_user_ids repeating_entropy
             = uuid_from_u128 7 :: uuid_from_u128 7 :: rest).
  { eexists. vm_compute. reflexivity. }
  split; [vm_compute; reflexivity |].
  destruct Hhead as [rest ->].
  intro Hnd. inversion Hnd as [| x l Hnotin Hnd']. subst.
  apply Hnotin. left. reflexivity.
Qed.

(** C8 (amended): an identifier is [Uuid::new_v4()]: one 128-bit random draw
    with its six version and variant bits overwritten. The code checks no
    identifier against another; two identifiers are equal exactly when their
    draws agree on the other 122 bits. *)
Theorem new_v4_ids_equal_iff {W : Type} `{Env W} :
  (forall s : W, fst (new_v4 s) = uuid_from_u128 (fst (rng_u128 s))) /\
  (forall x y : Z,
     uuid_from_u128 x = uuid_from_u128 y <->
     Z.land x uuid_v4_free = Z.land y uuid_v4_free).
Proof.
  split.
  - intro s. unfold new_v4. destruct (rng_u128 s). reflexivity.
  - intros x y. split.
    + intro Heq. rewrite <- (uuid_from_u128_land_free x), <- (uuid_from_u128_land_free y).
      now rewrite Heq.
    + intro Heq. rewrite !uuid_from_u128_free. now rewrite Heq.
Qed.

(** ** C9: the CPU-count setting *)

(** C9: right after [set_cpu_count(n)], [get_cpu_count()] returns [n], for
    the three adapters. DuckDB's [set_cpu_count] only records [n] and hands a
    [SET threads TO n] task to the runtime: when it returns, the thread
    setting of the connection is still the previous one. *)
Theorem set_cpu_count_then_get :
  (forall n b, CpuCount.sqlite_get_cpu_count (CpuCount.sqlite_set_cpu_count n b) = n) /\
  (forall n b, CpuCount.rocks_get_cpu_count (CpuCount.rocks_set_cpu_count n b) = n) /\
  (forall n b rt,
     let '(b', rt') := CpuCount.duck_set_cpu_count n b rt in
     CpuCount.duck_get_cpu_count b' = n /\
     CpuCount.conn_threads rt' = CpuCount.conn_threads rt /\
     CpuCount.spawned rt' = CpuCount.spawned rt ++ [CpuCount.SetThreads n]).
Proof.
  split; [| split]; intros; repeat split; reflexivity.
Qed.


(** ** Benchmark operations of the adapters: properties *)

Lemma measure_execution_ok {W} `{Env W} dn tn n c (f : M W unit) s a s' :
  f s = (Ok a, s') ->
  exists r, measure_execution dn tn n c f s = (Ok r, s') /\
    br_database r = dn /\ test_name r = tn /\ operations r = n /\ cpu_count r = c.
Proof.
  intro Hf. unfold measure_execution, bind, lift, ret. rewrite Hf.
  eexists. split; [reflexivity | repeat split].
Qed.

Lemma measure_execution_err {W} `{Env W} dn tn n c (f : M W unit) s e s' :
  f s = (Err e, s') -> measure_execution dn tn n c f s = (Err e, s').
Proof. intro Hf. unfold measure_execution, bind, lift, ret. now rewrite Hf. Qed.

Lemma measure_execution_panic {W} `{Env W} dn tn n c (f : M W unit) s p s' :
  f s = (Panic p, s') -> measure_execution dn tn n c f s = (Panic p, s').
Proof. intro Hf. unfold measure_execution, bind, lift, ret. now rewrite Hf. Qed.

Lemma world_generate_random_user {E D} `{Env E} (e : E) (d : D) :
  generate_random_user (mkWorld e d) =
  let '(u, e') := generate_random_user e in (u, mkWorld e' d).
Proof.
  unfold generate_random_user, new_v4. cbn.
  destruct (rng_u128 e) as [x e1]. cbn.
  destruct (gen_range 1000 9999 e1) as [n1 e2]. cbn.
  destruct (gen_range 1000 9999 e2) as [n2 e3]. cbn.
  destruct (gen_bool _ e3) as [b e4]. reflexivity.
Qed.

Lemma world_generate_random_product {E D} `{Env E} (e : E) (d : D) :
  generate_random_product (mkWorld e d) =
  let '(p, e') := generate_random_product e in (p, mkWorld e' d).
Proof.
  unfold generate_random_product, new_v4. cbn.
  destruct (rng_u128 e) as [x e1]. cbn.
  destruct (gen_range 1000 9999 e1) as [n1 e2]. cbn.
  destruct (gen_range 1000 9999 e2) as [n2 e3]. cbn.
  destruct (gen_range 100 10000 e3) as [c e4]. cbn.
  destruct (gen_range 0 1000 e4) as [k e5]. reflexivity.
Qed.

Lemma world_collect {E D A} (g : World E D -> A * World E D) (g0 : E -> A * E)
    (Hg : forall e d, g (mkWorld e d) = let '(a, e') := g0 e in (a, mkWorld e' d))
    (n : nat) (e : E) (d : D) :
  collect n g (mkWorld e d) = let '(l, e') := collect n g0 e in (l, mkWorld e' d).
Proof.
  revert e. induction n as [| n IH]; intro e; [reflexivity |].
  cbn [collect]. rewrite Hg. destruct (g0 e) as [a e1].
  rewrite IH. destruct (collect n g0 e1) as [l e2]. reflexivity.
Qed.

Lemma collect_cons {W A} (n : nat) (g : W -> A * W) (s : W) :
  fst (collect (S n) g s) = fst (g s) :: fst (collect n g (snd (g s))).
Proof.
  cbn [collect]. destruct (g s) as [a s1]. cbn.
  destruct (collect n g s1) as [l s2]. reflexivity.
Qed.

Lemma for_each_cons {W} (i : nat) (is : list nat) (body : nat -> M W unit) (s : W) :
  for_each (i :: is) body s =
  match body i s with
  | (Ok _, s1) => for_each is body s1
  | (Err e, s1) => (Err e, s1)
  | (Panic p, s1) => (Panic p, s1)
  end.
Proof. reflexivity. Qed.

Lemma sqldb_eta (d : SqlDb) : mkSqlDb (users_t d) (products_t d) (orders_t d) = d.
Proof. destruct d. reflexivity. Qed.

Lemma sqlite_insert_each_users (l : list User) (d : SqlDb) :
  match insert_each Sqlite.insert_user l d with
  | Ok d' => d' = mkSqlDb (users_t d ++ l) (products_t d) (orders_t d)
  | Err m => m = "UNIQUE constraint failed: users.id"%string
  | Panic _ => False
  end.
Proof.
  revert d. induction l as [| u l IH]; intro d; cbn [insert_each].
  - cbn. now rewrite app_nil_r, sqldb_eta.
  - unfold Sqlite.insert_user at 1.
    destruct (existsb _ (users_t d)); cbn [obind]; [reflexivity |].
    specialize (IH (mkSqlDb (users_t d ++ [u]) (products_t d) (orders_t d))).
    destruct (insert_each Sqlite.insert_user l _); cbn in *; auto.
    now rewrite <- app_assoc in IH.
Qed.

Section SqliteSingle.
Context {E : Type} `{Env E}.

Lemma sqlite_single_loop (is : list nat) (e : E) (d : SqlDb) :
  exists pre rest,
    fst (collect (List.length is) generate_random_user e) = pre ++ rest /\
    match insert_each Sqlite.insert_user (pre ++ rest) d with
    | Ok d' => rest = [] /\ exists e', for_each is sqlite_single_body (mkWorld e d) = (Ok tt, mkWorld e' d')
    | Err m => rest <> [] /\ exists e',
        for_each is sqlite_single_body (mkWorld e d) =
        (Err m, mkWorld e' (mkSqlDb (users_t d ++ pre) (products_t d) (orders_t d)))
    | Panic _ => False
    end.
Proof.
  revert e d. induction is as [| i is IH]; intros e d.
  - exists [], []. split; [reflexivity |]. cbn. split; [reflexivity |].
    exists e. reflexivity.
  - cbn [List.length]. rewrite collect_cons.
    destruct (generate_random_user e) as [u e1] eqn:Eg. cbn [fst snd].
    assert (Hstep : sqlite_single_body i (mkWorld e d) =
      match Sqlite.insert_user d u with
      | Ok d1 => (Ok tt, mkWorld e1 d1)
      | Err m => (Err m, mkWorld e1 d)
      | Panic p => (Panic p, mkWorld e1 d)
      end).
    { unfold sqlite_single_body, bind, lift, execute.
      rewrite world_generate_random_user, Eg. cbn.
      destruct (Sqlite.insert_user d u); reflexivity. }
    rewrite for_each_cons, Hstep.
    destruct (Sqlite.insert_user d u) as [d1 | m | p] eqn:Ei.
    + destruct (IH e1 d1) as (pre & rest & Hl & Hm).
      exists (u :: pre), rest. split; [now rewrite Hl |].
      cbn [app insert_each]. rewrite Ei. cbn [obind].
      unfold Sqlite.insert_user in Ei.
      destruct (existsb _ (users_t d)); [discriminate |].
      injection Ei as <-. cbn [users_t products_t orders_t] in Hm.
      destruct (insert_each Sqlite.insert_user (pre ++ rest) _); auto.
      destruct Hm as [Hr [e' He]]. split; [exact Hr |]. exists e'.
      rewrite <- app_assoc in He. exact He.
    + exists [], (u :: fst (collect (List.length is) generate_random_user e1)).
      split; [reflexivity |]. cbn [app insert_each]. rewrite Ei. cbn [obind].
      split; [discriminate |]. exists e1. rewrite app_nil_r, sqldb_eta. reflexivity.
    + unfold Sqlite.insert_user in Ei. destruct (existsb _ _); discriminate.
Qed.

End SqliteSingle.

Section SqliteInsert.
Context {E : Type} `{Env E}.

(** SQLite's [insert_single_many_times] inserts the drawn users one by one
    without a transaction: the table keeps the users inserted before the
    first failure, a failure is the UNIQUE violation of a drawn id, and a
    successful run inserts them all. *)
Theorem sqlite_insert_single_many_times_prefix (cpu count : nat) (e : E) (d : SqlDb) :
  let R := SqliteOps.insert_single_many_times cpu count (mkWorld e d) in
  exists pre rest,
    fst (collect count generate_random_user e) = pre ++ rest /\
    store (snd R) = mkSqlDb (users_t d ++ pre) (products_t d) (orders_t d) /\
    match fst R with
    | Ok _ => rest = []
    | Err m => rest <> [] /\ m = "UNIQUE constraint failed: users.id"%string
    | Panic _ => False
    end.
Proof.
  cbv zeta.
  destruct (sqlite_single_loop (seq 0 count) e d) as (pre & rest & Hl & Hm).
  rewrite length_seq in Hl. exists pre, rest. split; [exact Hl |].
  pose proof (sqlite_insert_each_users (pre ++ rest) d) as Hu.
  assert (HR1 : SqliteOps.insert_single_many_times cpu count (mkWorld e d) =
    measure_execution SqliteOps.database_name "Insert Single Many Times" count cpu
      (SqliteOps.call (for_each (seq 0 count) sqlite_single_body)) (mkWorld e d)) by reflexivity.
  rewrite HR1.
  destruct (insert_each Sqlite.insert_user (pre ++ rest) d) as [d' | m | p].
  - destruct Hm as [-> [e' He]]. rewrite app_nil_r in Hu.
    destruct (measure_execution_ok SqliteOps.database_name "Insert Single Many Times"
      count cpu (SqliteOps.call (for_each (seq 0 count) sqlite_single_body))
      (mkWorld e d) tt (mkWorld e' d')) as [r [Hr _]].
    { unfold SqliteOps.call. now rewrite He. }
    rewrite Hr. cbn. split; [now subst |]. reflexivity.
  - destruct Hm as [Hr [e' He]].
    rewrite (measure_execution_err _ _ _ _ _ _ m (mkWorld e' (mkSqlDb (users_t d ++ pre) (products_t d) (orders_t d)))).
    + cbn. auto.
    + unfold SqliteOps.call. now rewrite He.
  - contradiction.
Qed.

(** SQLite's [insert_many_at_once] inserts the same drawn users inside one
    transaction: either every insert succeeds, with the same table as
    [insert_single_many_times], or both fail on a UNIQUE violation and the
    transaction leaves the table as it was. *)
Theorem sqlite_insert_many_at_once_atomic (cpu count : nat) (e : E) (d : SqlDb) :
  let drawn := fst (collect count generate_random_user e) in
  let R1 := SqliteOps.insert_single_many_times cpu count (mkWorld e d) in
  let R2 := SqliteOps.insert_many_at_once cpu count (mkWorld e d) in
  ((exists r1 r2, fst R1 = Ok r1 /\ fst R2 = Ok r2) /\
     store (snd R2) = mkSqlDb (users_t d ++ drawn) (products_t d) (orders_t d) /\
     store (snd R1) = store (snd R2))
  \/ (fst R1 = Err "UNIQUE constraint failed: users.id"%string /\
      fst R2 = Err "UNIQUE constraint failed: users.id"%string /\
      store (snd R2) = d).
Proof.
  cbv zeta.
  destruct (sqlite_single_loop (seq 0 count) e d) as (pre & rest & Hl & Hm).
  rewrite length_seq in Hl.
  pose proof (sqlite_insert_each_users (pre ++ rest) d) as Hu.
  set (F := (users <- lift (collect count generate_random_user) ;;
              SqliteOps.call (Sqlite.transaction (insert_each Sqlite.insert_user users)))
             : M (World E SqlDb) unit).
  assert (HR2 : SqliteOps.insert_many_at_once cpu count (mkWorld e d) =
    measure_execution SqliteOps.database_name "Insert Many At Once" count cpu F (mkWorld e d))
    by reflexivity.
  assert (HF : F (mkWorld e d) =
    SqliteOps.call (Sqlite.transaction (insert_each Sqlite.insert_user (pre ++ rest)))
      (mkWorld (snd (collect count generate_random_user e)) d)).
  { unfold F, bind at 1, lift at 1.
    rewrite (world_collect _ _ world_generate_random_user).
    rewrite <- Hl. destruct (collect count generate_random_user e) as [l e1].
    reflexivity. }
  assert (HR1 : SqliteOps.insert_single_many_times cpu count (mkWorld e d) =
    measure_execution SqliteOps.database_name "Insert Single Many Times" count cpu
      (SqliteOps.call (for_each (seq 0 count) sqlite_single_body)) (mkWorld e d)) by reflexivity.
  rewrite HR1, HR2, Hl.
  clearbody F.
  destruct (insert_each Sqlite.insert_user (pre ++ rest) d) as [d' | m | p] eqn:Ei.
  - left. destruct Hm as [-> [e' He]]. rewrite app_nil_r in *.
    destruct (measure_execution_ok SqliteOps.database_name "Insert Single Many Times"
      count cpu (SqliteOps.call (for_each (seq 0 count) sqlite_single_body))
      (mkWorld e d) tt (mkWorld e' d')) as [r1 [Hr1 _]].
    { unfold SqliteOps.call. now rewrite He. }
    destruct (measure_execution_ok SqliteOps.database_name "Insert Many At Once"
      count cpu F (mkWorld e d) tt
      (mkWorld (snd (collect count generate_random_user e)) d')) as [r2 [Hr2 _]].
    { rewrite HF. unfold SqliteOps.call, Sqlite.transaction. cbn [store]. now rewrite Ei. }
    rewrite Hr1, Hr2. cbn. split; [eauto |]. split; [exact Hu | reflexivity].
  - right. destruct Hm as [_ [e' He]]. subst m.
    rewrite (measure_execution_err _ _ _ _ _ _ "UNIQUE constraint failed: users.id"%string
      (mkWorld e' (mkSqlDb (users_t d ++ pre) (products_t d) (orders_t d)))).
    2: { unfold SqliteOps.call. now rewrite He. }
    rewrite (measure_execution_err _ _ _ _ _ _ "UNIQUE constraint failed: users.id"%string
      (mkWorld (snd (collect count generate_random_user e)) d)).
    2: { rewrite HF. unfold SqliteOps.call, Sqlite.transaction. cbn [store]. now rewrite Ei. }
    cbn. auto.
  - contradiction.
Qed.

End SqliteInsert.

Lemma for_each_pure_ok {W} (is : list nat) (body : nat -> M W unit) (s : W) :
  (forall i, In i is -> body i s = (Ok tt, s)) -> for_each is body s = (Ok tt, s).
Proof.
  induction is as [| i is IH]; intro Hb; [reflexivity |].
  rewrite for_each_cons, (Hb i (or_introl eq_refl)).
  apply IH. intros j Hj. apply Hb. now right.
Qed.



Lemma seq_snoc (n : nat) : seq 0 (S n) = seq 0 n ++ [n].
Proof. now rewrite seq_S. Qed.

Lemma mod2_eqb_even (m : nat) : Nat.eqb (Nat.modulo m 2) 0 = Nat.even m.
Proof.
  induction m as [m IH] using (well_founded_induction lt_wf).
  destruct m as [| [| m]]; [reflexivity | reflexivity |].
  replace (S (S m)) with (m + 1 * 2)%nat by lia.
  rewrite Nat.Div0.mod_add. rewrite Nat.even_add. cbn [Nat.even].
  rewrite IH by lia. now destruct (Nat.even m).
Qed.

Lemma set_active_set_active (b b' : bool) (u : User) :
  set_active b (set_active b' u) = set_active b u.
Proof. reflexivity. Qed.



Section SqliteReadUpdate.
Context {E : Type} `{Env E}.






End SqliteReadUpdate.

Lemma list_ascii_of_string_app (a b : string) :
  list_ascii_of_string (a ++ b) = list_ascii_of_string a ++ list_ascii_of_string b.
Proof. induction a as [| x a IH]; cbn; [reflexivity | now rewrite IH]. Qed.

Lemma split_on_none (c : ascii) (b : string) :
  (forall x, In x (list_ascii_of_string b) -> x <> c) -> RocksDBOps.split_on c b = [b].
Proof.
  induction b as [| x b IH]; intro Hb; [reflexivity |].
  cbn. rewrite IH by (intros y Hy; apply Hb; now right).
  destruct (Ascii.eqb_spec x c) as [Hx | _]; [| reflexivity].
  exfalso. exact (Hb x (or_introl eq_refl) Hx).
Qed.

Lemma split_on_sep (c : ascii) (a b : string) :
  (forall x, In x (list_ascii_of_string a) -> x <> c) ->
  RocksDBOps.split_on c (a ++ String c b) = a :: RocksDBOps.split_on c b.
Proof.
  induction a as [| x a IH]; intro Ha.
  - cbn. now rewrite Ascii.eqb_refl.
  - cbn [append RocksDBOps.split_on].
    rewrite IH by (intros y Hy; apply Ha; now right).
    destruct (Ascii.eqb_spec x c) as [Hx | _]; [| reflexivity].
    exfalso. exact (Ha x (or_introl eq_refl) Hx).
Qed.

Lemma decimal_uint_no_colon (d : Decimal.uint) :
  forall x, In x (list_ascii_of_string (NilEmpty.string_of_uint d)) -> x <> ":"%char.
Proof.
  induction d; cbn; intros x Hx; try contradiction;
    (destruct Hx as [<- | Hx]; [discriminate | now apply IHd]).
Qed.

Lemma decimal_no_colon (n : Z) :
  forall x, In x (list_ascii_of_string (decimal n)) -> x <> ":"%char.
Proof.
  unfold decimal, NilZero.string_of_int, NilZero.string_of_uint.
  destruct (Z.to_int n) as [u | u].
  - destruct u; intros x Hx; try (cbn in Hx; destruct Hx as [<- | []]; discriminate);
      exact (decimal_uint_no_colon _ x Hx).
  - intros x Hx. destruct Hx as [<- | Hx]; [discriminate |].
    revert x Hx.
    destruct u; intros x Hx; try (cbn in Hx; destruct Hx as [<- | []]; discriminate);
      exact (decimal_uint_no_colon _ x Hx).
Qed.

Lemma hex_digits_no_colon (n : nat) (v : Z) :
  forall x, In x (list_ascii_of_string (hex_digits n v)) -> x <> ":"%char.
Proof.
  revert v. induction n as [| n IH]; intros v x Hx; [contradiction |].
  cbn [hex_digits] in Hx. rewrite list_ascii_of_string_app in Hx.
  apply in_app_or in Hx. destruct Hx as [Hx | Hx]; [exact (IH _ x Hx) |].
  unfold hex_digit in Hx. destruct Hx as [<- | []].
  assert (Hd : 0 <= Z.land v 15 < 16).
  { change 15 with (Z.ones 4). rewrite Z.land_ones by lia.
    apply Z.mod_pos_bound. lia. }
  intro Hc. apply (f_equal nat_of_ascii) in Hc.
  rewrite nat_ascii_embedding in Hc by (destruct (Z.land v 15 <? 10); lia).
  change (nat_of_ascii ":") with 58%nat in Hc.
  destruct (Z.ltb_spec (Z.land v 15) 10); lia.
Qed.

Lemma uuid_to_string_no_colon (u : Uuid) :
  forall x, In x (list_ascii_of_string (uuid_to_string u)) -> x <> ":"%char.
Proof.
  unfold uuid_to_string. intros x Hx.
  repeat (rewrite list_ascii_of_string_app in Hx; apply in_app_or in Hx;
          destruct Hx as [Hx | Hx]; [try (exact (hex_digits_no_colon _ _ x Hx));
                                     try (destruct Hx as [<- | []]; discriminate) |]).
  exact (hex_digits_no_colon _ _ x Hx).
Qed.

Lemma generated_email_no_colon {W} `{Env W} (s : W) :
  forall x, In x (list_ascii_of_string (user_email (fst (generate_random_user s)))) -> x <> ":"%char.
Proof.
  unfold generate_random_user, new_v4.
  destruct (rng_u128 s) as [r s1]. destruct (gen_range 1000 9999 s1) as [n1 s2].
  destruct (gen_range 1000 9999 s2) as [n2 s3]. destruct (gen_bool _ s3) as [b s4].
  cbn [fst user_email]. intros x Hx.
  rewrite !list_ascii_of_string_app in Hx.
  apply in_app_or in Hx. destruct Hx as [Hx | Hx].
  { cbn in Hx. intuition (subst; discriminate). }
  apply in_app_or in Hx. destruct Hx as [Hx | Hx]; [now apply (decimal_no_colon n2 x) |].
  cbn in Hx. intuition (subst; discriminate).
Qed.

(** The RocksDB email index stores [email:id] under a generated user's
    email; splitting that key at the first colon gives back the user id,
    since neither the generated email nor the UUID text contains a colon. *)
Theorem email_index_key_user_id {W} `{Env W} (s : W) :
  let u := fst (generate_random_user s) in
  RocksDBOps.index_key_user_id (user_email u ++ ":" ++ uuid_to_string (user_id_ u))%string =
  uuid_to_string (user_id_ u).
Proof.
  cbv zeta. unfold RocksDBOps.index_key_user_id. cbn [append].
  rewrite split_on_sep by apply generated_email_no_colon.
  rewrite split_on_none by apply uuid_to_string_no_colon.
  reflexivity.
Qed.

Module RocksDBStore.
Import RocksDB RocksDBOps.

Lemma remove_key_idem (k : string) (cf : ColumnFamily) :
  remove_key k (remove_key k cf) = remove_key k cf.
Proof.
  unfold remove_key. induction cf as [| kv cf IH]; [reflexivity |].
  cbn. destruct (negb (String.eqb (fst kv) k)) eqn:Ek; cbn; [rewrite Ek; f_equal |]; exact IH.
Qed.

Lemma put_put (n k : string) (v1 v2 : Value) (db : DB) :
  write (write db [PutCf n k v1]) [PutCf n k v2] = write db [PutCf n k v2].
Proof.
  unfold write. cbn [fold_left apply_op]. unfold update_cf. rewrite map_map.
  apply map_ext. intros [m cf]. cbn [fst snd].
  destruct (String.eqb m n) eqn:Em; cbn [fst snd]; rewrite ?Em; [| reflexivity].
  unfold remove_key at 1. cbn [filter fst]. rewrite String.eqb_refl. cbn [negb].
  fold (remove_key k (remove_key k cf)). now rewrite remove_key_idem.
Qed.

Lemma cf_handle_put (n k : string) (v : Value) (db : DB) (cf : ColumnFamily) :
  cf_handle db n = Some cf ->
  cf_handle (write db [PutCf n k v]) n = Some ((k, v) :: remove_key k cf).
Proof.
  intro Hc. unfold write. cbn [fold_left apply_op].
  rewrite RocksDBFacts.cf_handle_update, String.eqb_refl, Hc. reflexivity.
Qed.

Lemma get_cf_head (k : string) (v : Value) (cf : ColumnFamily) :
  get_cf ((k, v) :: cf) k = Some v.
Proof. unfold get_cf. cbn. now rewrite String.eqb_refl. Qed.

Lemma lookup_of_handle (db : DB) (n k : string) (cf : ColumnFamily) :
  cf_handle db n = Some cf -> lookup db n k = get_cf cf k.
Proof. unfold lookup. now intros ->. Qed.

Lemma in_insert_by_key (kv y : string * Value) (l : ColumnFamily) :
  In y (insert_by_key kv l) <-> kv = y \/ In y l.
Proof.
  induction l as [| kv' l IH]; cbn; [tauto |].
  destruct (String.leb (fst kv) (fst kv')); cbn; rewrite ?IH; tauto.
Qed.

Lemma in_iterator_start (y : string * Value) (cf : ColumnFamily) :
  In y (iterator_start cf) <-> In y cf.
Proof.
  unfold iterator_start. induction cf as [| kv cf IH]; cbn; [tauto |].
  rewrite in_insert_by_key, IH. tauto.
Qed.

Lemma get_cf_in (cf : ColumnFamily) (k : string) (v : Value) :
  In (k, v) cf -> exists v', get_cf cf k = Some v' /\ In (k, v') cf.
Proof.
  intro Hin. unfold get_cf.
  destruct (find (fun kv => String.eqb (fst kv) k) cf) as [[k' v'] |] eqn:Hf.
  - exists v'. split; [reflexivity |].
    pose proof (find_some _ _ Hf) as [Hi He]. cbn in He.
    apply String.eqb_eq in He. now subst k'.
  - exfalso. apply (find_none _ _ Hf) in Hin. cbn in Hin.
    now rewrite String.eqb_refl in Hin.
Qed.

Section PutLoop.
Context {E : Type} `{Env E} {A : Type}.
Variables (n k : string) (dec : Value -> Outcome A) (enc : A -> Value) (h : nat -> A -> A).
Hypothesis Hdec : forall a, dec (enc a) = Ok a.
Hypothesis Hh : forall i j a, h i (h j a) = h i a.

Lemma put_loop (l : list nat) (x : nat) (d0 : DB) (cf0 : ColumnFamily) (a0 : A) (e : E) :
  cf_handle d0 n = Some cf0 -> get_cf cf0 k = Some (enc a0) ->
  for_each (l ++ [x]) (fun i =>
    value <- db_get n k ;;
    match value with
    | Some bytes => a <- from_outcome (dec bytes) ;; db_put n k (enc (h i a))
    | None => ret tt
    end) (mkWorld e d0) =
  (Ok tt, mkWorld e (write d0 [PutCf n k (enc (h x a0))])).
Proof.
  revert d0 cf0 a0. induction l as [| y l IH]; intros d0 cf0 a0 Hc Hg.
  - cbn [app]. rewrite for_each_cons.
    unfold bind at 1, db_get. cbn [store]. rewrite (lookup_of_handle _ _ k cf0 Hc), Hg.
    unfold bind, from_outcome. rewrite Hdec. reflexivity.
  - cbn [app]. rewrite for_each_cons.
    unfold bind at 1, db_get. cbn [store]. rewrite (lookup_of_handle _ _ k cf0 Hc), Hg.
    unfold bind at 1, from_outcome at 1. rewrite Hdec. cbn -[for_each write].
    etransitivity;
      [exact (IH _ _ (h y a0) (cf_handle_put n k (enc (h y a0)) d0 cf0 Hc) (get_cf_head _ _ _)) |].
    now rewrite put_put, Hh.
Qed.

Lemma put_loop_fail (i : nat) (is : list nat) (d0 : DB) (cf0 : ColumnFamily) (v : Value)
    (m : string) (e : E) :
  cf_handle d0 n = Some cf0 -> get_cf cf0 k = Some v -> dec v = Err m ->
  for_each (i :: is) (fun i =>
    value <- db_get n k ;;
    match value with
    | Some bytes => a <- from_outcome (dec bytes) ;; db_put n k (enc (h i a))
    | None => ret tt
    end) (mkWorld e d0) = (Err m, mkWorld e d0).
Proof.
  intros Hc Hg Hd. rewrite for_each_cons.
  unfold bind, db_get, from_outcome. cbn [store].
  rewrite (lookup_of_handle _ _ k cf0 Hc), Hg, Hd. reflexivity.
Qed.

End PutLoop.
End RocksDBStore.

Module RocksDBOpsFacts.
Import RocksDB RocksDBOps RocksDBStore.

Section RocksDBOpsFacts.
Context {E : Type} `{Env E}.

Lemma handle_then (name : string) (cf : ColumnFamily) (F : M (World E DB) unit) (e : E) (d : DB) :
  cf_handle d name = Some cf -> (handle name ;;; F) (mkWorld e d) = F (mkWorld e d).
Proof. intro Hc. unfold bind, handle. cbn [store]. now rewrite Hc. Qed.

(** RocksDB's [update_single_field_one_entry]: without a users column family
    the [unwrap] panics, with no users the run fails, and otherwise the
    first key's user ends with [active] set by the last iteration (a value
    that is not a user fails to deserialize). *)
Theorem rocksdb_update_single_field_one_entry_last (cpu count : nat) (e : E) (d : DB) :
  let R := update_single_field_one_entry cpu count (mkWorld e d) in
  match cf_handle d USERS_CF with
  | None => R = (Panic "called `Option::unwrap()` on a `None` value"%string, mkWorld e d)
  | Some cf =>
      match iterator_start cf with
      | [] => R = (Err "No users found for update"%string, mkWorld e d)
      | (k, _) :: _ =>
          match count, get_cf cf k with
          | O, _ => (exists r, fst R = Ok r) /\ snd R = mkWorld e d
          | S m, Some (VUser u) =>
              (exists r, fst R = Ok r) /\
              snd R = mkWorld e (write d [PutCf USERS_CF k (VUser (set_active (Nat.even m) u))])
          | S _, _ => fst R = Err "failed to deserialize a User"%string /\ snd R = mkWorld e d
          end
      end
  end.
Proof.
  cbv zeta. destruct (cf_handle d USERS_CF) as [cf |] eqn:Hc.
  2: { unfold update_single_field_one_entry, bind at 1, bind at 1, handle. cbn [store].
       now rewrite Hc. }
  destruct (iterator_start cf) as [| [k v] rest] eqn:Hi.
  { unfold update_single_field_one_entry, bind at 1, bind at 1, handle. cbn [store].
    rewrite Hc. cbn [unwrap]. now rewrite Hi. }
  set (body := fun i : nat =>
    value <- db_get USERS_CF k ;;
    match value with
    | Some bytes => a <- from_outcome (deserialize_user bytes) ;;
                    db_put USERS_CF k (VUser (set_active (Nat.eqb (Nat.modulo i 2) 0) a))
    | None => ret tt
    end : M (World E DB) unit).
  assert (HR : update_single_field_one_entry cpu count (mkWorld e d) =
    measure_execution database_name "Update Single Field One Entry" count cpu
      (handle USERS_CF ;;; for_each (seq 0 count) body) (mkWorld e d)).
  { unfold update_single_field_one_entry, bind at 1, bind at 1, handle at 1. cbn [store].
    rewrite Hc. cbn [unwrap]. rewrite Hi. reflexivity. }
  rewrite HR.
  assert (Hin : In (k, v) cf) by (apply in_iterator_start; rewrite Hi; now left).
  destruct (get_cf_in cf k v Hin) as [v' [Hg _]]. rewrite Hg.
  destruct count as [| m].
  - destruct (measure_execution_ok database_name "Update Single Field One Entry" 0 cpu
      (handle USERS_CF ;;; for_each (seq 0 0) body) (mkWorld e d) tt (mkWorld e d)) as [r [Hr _]].
    { now rewrite (handle_then _ cf). }
    rewrite Hr. split; [now exists r | reflexivity].
  - destruct v' as [u | p | o |].
    + destruct (measure_execution_ok database_name "Update Single Field One Entry" (S m) cpu
        (handle USERS_CF ;;; for_each (seq 0 (S m)) body) (mkWorld e d) tt
        (mkWorld e (write d [PutCf USERS_CF k (VUser (set_active (Nat.even m) u))]))) as [r [Hr _]].
      { rewrite (handle_then _ cf) by exact Hc. rewrite seq_snoc. subst body.
        rewrite <- mod2_eqb_even.
        exact (put_loop USERS_CF k deserialize_user VUser
                 (fun i a => set_active (Nat.eqb (Nat.modulo i 2) 0) a)
                 (fun a => eq_refl) (fun i j a => eq_refl) (seq 0 m) m d cf u e Hc Hg). }
      rewrite Hr. split; [now exists r | reflexivity].
    +       rewrite (measure_execution_err _ _ _ _ _ _ "failed to deserialize a User"%string (mkWorld e d)).
      { split; reflexivity. }
      rewrite (handle_then _ cf) by exact Hc. subst body.
      exact (put_loop_fail USERS_CF k deserialize_user VUser
               (fun i a => set_active (Nat.eqb (Nat.modulo i 2) 0) a)
               0 (seq 1 m) d cf _ _ e Hc Hg eq_refl).
    + rewrite (measure_execution_err _ _ _ _ _ _ "failed to deserialize a User"%string (mkWorld e d)).
      { split; reflexivity. }
      rewrite (handle_then _ cf) by exact Hc. subst body.
      exact (put_loop_fail USERS_CF k deserialize_user VUser
               (fun i a => set_active (Nat.eqb (Nat.modulo i 2) 0) a)
               0 (seq 1 m) d cf _ _ e Hc Hg eq_refl).
    + rewrite (measure_execution_err _ _ _ _ _ _ "failed to deserialize a User"%string (mkWorld e d)).
      { split; reflexivity. }
      rewrite (handle_then _ cf) by exact Hc. subst body.
      exact (put_loop_fail USERS_CF k deserialize_user VUser
               (fun i a => set_active (Nat.eqb (Nat.modulo i 2) 0) a)
               0 (seq 1 m) d cf _ _ e Hc Hg eq_refl).
Qed.

(** RocksDB's [update_multiple_fields_one_entry]: the same shape for the
    products column family and the fields of the last iteration. *)
Theorem rocksdb_update_multiple_fields_one_entry_last (cpu count : nat) (e : E) (d : DB) :
  let R := update_multiple_fields_one_entry cpu count (mkWorld e d) in
  match cf_handle d PRODUCTS_CF with
  | None => R = (Panic "called `Option::unwrap()` on a `None` value"%string, mkWorld e d)
  | Some cf =>
      match iterator_start cf with
      | [] => R = (Err "No products found for update"%string, mkWorld e d)
      | (k, _) :: _ =>
          match count, get_cf cf k with
          | O, _ => (exists r, fst R = Ok r) /\ snd R = mkWorld e d
          | S m, Some (VProduct p) =>
              (exists r, fst R = Ok r) /\
              snd R = mkWorld e (write d [PutCf PRODUCTS_CF k (VProduct (updated_product m p))])
          | S _, _ => fst R = Err "failed to deserialize a Product"%string /\ snd R = mkWorld e d
          end
      end
  end.
Proof.
  cbv zeta. destruct (cf_handle d PRODUCTS_CF) as [cf |] eqn:Hc.
  2: { unfold update_multiple_fields_one_entry, bind at 1, bind at 1, handle. cbn [store].
       now rewrite Hc. }
  destruct (iterator_start cf) as [| [k v] rest] eqn:Hi.
  { unfold update_multiple_fields_one_entry, bind at 1, bind at 1, handle. cbn [store].
    rewrite Hc. cbn [unwrap]. now rewrite Hi. }
  set (body := fun i : nat =>
    value <- db_get PRODUCTS_CF k ;;
    match value with
    | Some bytes => a <- from_outcome (deserialize_product bytes) ;;
                    db_put PRODUCTS_CF k (VProduct (updated_product i a))
    | None => ret tt
    end : M (World E DB) unit).
  assert (HR : update_multiple_fields_one_entry cpu count (mkWorld e d) =
    measure_execution database_name "Update Multiple Fields One Entry" count cpu
      (handle PRODUCTS_CF ;;; for_each (seq 0 count) body) (mkWorld e d)).
  { unfold update_multiple_fields_one_entry, bind at 1, bind at 1, handle at 1. cbn [store].
    rewrite Hc. cbn [unwrap]. rewrite Hi. reflexivity. }
  rewrite HR.
  assert (Hin : In (k, v) cf) by (apply in_iterator_start; rewrite Hi; now left).
  destruct (get_cf_in cf k v Hin) as [v' [Hg _]]. rewrite Hg.
  destruct count as [| m].
  - destruct (measure_execution_ok database_name "Update Multiple Fields One Entry" 0 cpu
      (handle PRODUCTS_CF ;;; for_each (seq 0 0) body) (mkWorld e d) tt (mkWorld e d)) as [r [Hr _]].
    { now rewrite (handle_then _ cf). }
    rewrite Hr. split; [now exists r | reflexivity].
  - destruct v' as [u | p | o |];
      [| destruct (measure_execution_ok database_name "Update Multiple Fields One Entry" (S m) cpu
           (handle PRODUCTS_CF ;;; for_each (seq 0 (S m)) body) (mkWorld e d) tt
           (mkWorld e (write d [PutCf PRODUCTS_CF k (VProduct (updated_product m p))]))) as [r [Hr _]];
         [ rewrite (handle_then _ cf) by exact Hc; rewrite seq_snoc; subst body;
           exact (put_loop PRODUCTS_CF k deserialize_product VProduct updated_product
                    (fun a => eq_refl) (fun i j a => eq_refl) (seq 0 m) m d cf p e Hc Hg)
         | rewrite Hr; split; [now exists r | reflexivity]] | |];
      (rewrite (measure_execution_err _ _ _ _ _ _ "failed to deserialize a Product"%string (mkWorld e d));
       [split; reflexivity |];
       rewrite (handle_then _ cf) by exact Hc; subst body;
       exact (put_loop_fail PRODUCTS_CF k deserialize_product VProduct updated_product
                0 (seq 1 m) d cf _ _ e Hc Hg eq_refl)).
Qed.

Lemma write_app (d : DB) (l1 l2 : list BatchOp) : write d (l1 ++ l2) = write (write d l1) l2.
Proof. unfold write. apply fold_left_app. Qed.

Lemma rocks_single_loop (is : list nat) (e : E) (d : DB) :
  for_each is (fun _ =>
    user <- lift generate_random_user ;;
    let key := uuid_to_string (user_id_ user) in
    db_put USERS_CF key (VUser user) ;;;
    db_put USERS_EMAIL_INDEX_CF (user_email user ++ ":" ++ key)%string VEmpty)
    (mkWorld e d) =
  (Ok tt, mkWorld (snd (collect (List.length is) generate_random_user e))
            (write d (flat_map user_ops (fst (collect (List.length is) generate_random_user e))))).
Proof.
  revert e d. induction is as [| i is IH]; intros e d; [reflexivity |].
  rewrite for_each_cons. unfold bind at 1, lift at 1.
  rewrite world_generate_random_user.
  cbn [List.length collect]. destruct (generate_random_user e) as [u e1].
  unfold bind at 1, db_put at 1. cbn [store env_of set_store].
  unfold bind at 1, db_put at 1. cbn [store env_of set_store].
  etransitivity; [exact (IH e1 _) |].
  destruct (collect (List.length is) generate_random_user e1) as [l e2]. cbn [fst snd flat_map].
  rewrite write_app. reflexivity.
Qed.

(** RocksDB's [insert_single_many_times] and [insert_many_at_once] write the
    same users from the same draws and end in the same world; both panic
    when a column family handle is missing. *)
Theorem rocksdb_insert_single_vs_many (cpu count : nat) (e : E) (d : DB) :
  let drawn := fst (collect count generate_random_user e) in
  let R1 := insert_single_many_times cpu count (mkWorld e d) in
  let R2 := insert_many_at_once cpu count (mkWorld e d) in
  match cf_handle d USERS_CF, cf_handle d USERS_EMAIL_INDEX_CF with
  | Some _, Some _ =>
      (exists r1 r2, fst R1 = Ok r1 /\ fst R2 = Ok r2) /\
      store (snd R1) = write d (flat_map user_ops drawn) /\ snd R2 = snd R1
  | _, _ =>
      fst R1 = Panic "called `Option::unwrap()` on a `None` value"%string /\
      fst R2 = Panic "called `Option::unwrap()` on a `None` value"%string /\
      store (snd R1) = d /\ store (snd R2) = d
  end.
Proof.
  cbv zeta.
  set (F1 := (handle USERS_CF ;;; handle USERS_EMAIL_INDEX_CF ;;;
     for_range count (fun _ =>
       user <- lift generate_random_user ;;
       let key := uuid_to_string (user_id_ user) in
       db_put USERS_CF key (VUser user) ;;;
       db_put USERS_EMAIL_INDEX_CF (user_email user ++ ":" ++ key)%string VEmpty))
     : M (World E DB) unit).
  set (F2 := (users <- lift (collect count generate_random_user) ;;
     handle USERS_CF ;;; handle USERS_EMAIL_INDEX_CF ;;;
     db_write (flat_map user_ops users)) : M (World E DB) unit).
  change (insert_single_many_times cpu count (mkWorld e d)) with
    (measure_execution database_name "Insert Single Many Times" count cpu F1 (mkWorld e d)).
  change (insert_many_at_once cpu count (mkWorld e d)) with
    (measure_execution database_name "Insert Many At Once" count cpu F2 (mkWorld e d)).
  assert (HF2 : F2 (mkWorld e d) =
    (handle USERS_CF ;;; handle USERS_EMAIL_INDEX_CF ;;;
     db_write (flat_map user_ops (fst (collect count generate_random_user e))))
      (mkWorld (snd (collect count generate_random_user e)) d)).
  { subst F2. unfold bind at 1, lift at 1.
    rewrite (world_collect _ _ world_generate_random_user).
    destruct (collect count generate_random_user e) as [l e1]. reflexivity. }
  destruct (cf_handle d USERS_CF) as [c1 |] eqn:H1;
    [destruct (cf_handle d USERS_EMAIL_INDEX_CF) as [c2 |] eqn:H2 |].
  - assert (HF1 : F1 (mkWorld e d) =
      (Ok tt, mkWorld (snd (collect count generate_random_user e))
                (write d (flat_map user_ops (fst (collect count generate_random_user e)))))).
    { subst F1. rewrite (handle_then _ c1) by exact H1. rewrite (handle_then _ c2) by exact H2.
      unfold for_range. rewrite rocks_single_loop, length_seq. reflexivity. }
    destruct (measure_execution_ok database_name "Insert Single Many Times" count cpu F1
      (mkWorld e d) tt _ HF1) as [r1 [Hr1 _]].
    destruct (measure_execution_ok database_name "Insert Many At Once" count cpu F2
      (mkWorld e d) tt (mkWorld (snd (collect count generate_random_user e))
                (write d (flat_map user_ops (fst (collect count generate_random_user e))))))
      as [r2 [Hr2 _]].
    { rewrite HF2. rewrite (handle_then _ c1) by exact H1. rewrite (handle_then _ c2) by exact H2.
      reflexivity. }
    rewrite Hr1, Hr2. split; [now exists r1, r2 |]. split; reflexivity.
  - rewrite (measure_execution_panic _ _ _ _ F1 _ "called `Option::unwrap()` on a `None` value"%string (mkWorld e d)).
    2: { subst F1. rewrite (handle_then _ c1) by exact H1. unfold bind at 1, handle at 1.
         cbn [store]. now rewrite H2. }
    rewrite (measure_execution_panic _ _ _ _ F2 _ "called `Option::unwrap()` on a `None` value"%string
      (mkWorld (snd (collect count generate_random_user e)) d)).
    2: { rewrite HF2. rewrite (handle_then _ c1) by exact H1. unfold bind at 1, handle at 1.
         cbn [store]. now rewrite H2. }
    repeat split.
  - rewrite (measure_execution_panic _ _ _ _ F1 _ "called `Option::unwrap()` on a `None` value"%string (mkWorld e d)).
    2: { subst F1. unfold bind at 1, handle at 1. cbn [store]. now rewrite H1. }
    rewrite (measure_execution_panic _ _ _ _ F2 _ "called `Option::unwrap()` on a `None` value"%string
      (mkWorld (snd (collect count generate_random_user e)) d)).
    2: { rewrite HF2. unfold bind at 1, handle at 1. cbn [store]. now rewrite H1. }
    repeat split.
Qed.

Lemma length_iterator_start (cf : ColumnFamily) : List.length (iterator_start cf) = List.length cf.
Proof.
  unfold iterator_start. induction cf as [| kv cf IH]; [reflexivity |]. cbn [fold_right].
  transitivity (S (List.length (fold_right insert_by_key [] cf))); [| cbn; now rewrite IH].
  generalize (fold_right insert_by_key [] cf). intro l.
  induction l as [| kv' l IHl]; [reflexivity |]. cbn.
  destruct (String.leb (fst kv) (fst kv')); cbn; [reflexivity | now rewrite IHl].
Qed.

Lemma in_first_keys (cf : ColumnFamily) (count : nat) (k : string) :
  In k (first_keys cf count) -> exists v, In (k, v) cf.
Proof.
  unfold first_keys. intro Hk. apply in_map_iff in Hk. destruct Hk as [[k' v] [Hk Hin]].
  cbn in Hk. subst k'. exists v. apply in_iterator_start.
  rewrite <- (firstn_skipn count (iterator_start cf)). apply in_or_app. now left.
Qed.

(** RocksDB's [read_by_id_many_times] on a users column family holding only
    users leaves the world unchanged, panics on the remainder by zero when
    the family is empty and [count > 0], and otherwise succeeds. *)
Theorem rocksdb_read_by_id_many_times_outcome (cpu count : nat) (e : E) (d : DB) (cf : ColumnFamily) :
  cf_handle d USERS_CF = Some cf ->
  forallb (fun kv => match snd kv with VUser _ => true | _ => false end) cf = true ->
  let R := read_by_id_many_times cpu count (mkWorld e d) in
  snd R = mkWorld e d /\
  if Nat.eqb (List.length cf) 0 && negb (Nat.eqb count 0)
  then fst R = Panic "attempt to calculate the remainder with a divisor of zero"%string
  else exists r, fst R = Ok r.
Proof.
  intros Hc Hu. cbv zeta.
  set (ids := first_keys cf count).
  set (body := fun i : nat =>
       j <- from_outcome (rem_usize i (List.length ids)) ;;
       id <- from_outcome (index ids j) ;;
       value <- db_get USERS_CF id ;;
       match value with
       | Some bytes => from_outcome (deserialize_user bytes) ;;; ret tt
       | None => ret tt
       end : M (World E DB) unit).
  assert (HR : read_by_id_many_times cpu count (mkWorld e d) =
    measure_execution database_name "Read By ID Many Times" count cpu
      (handle USERS_CF ;;; for_each (seq 0 count) body) (mkWorld e d)).
  { unfold read_by_id_many_times, bind at 1, bind at 1, handle at 1. cbn [store].
    rewrite Hc. reflexivity. }
  rewrite HR.
  destruct count as [| n].
  { destruct (measure_execution_ok database_name "Read By ID Many Times" 0 cpu
      (handle USERS_CF ;;; for_each (seq 0 0) body) (mkWorld e d) tt (mkWorld e d)) as [r [Hr _]].
    { now rewrite (handle_then _ cf). }
    rewrite Hr. cbn [Nat.eqb negb]. rewrite andb_false_r. split; [reflexivity | now exists r]. }
  destruct (Nat.eqb_spec (List.length cf) 0) as [H0 | H0].
  - apply length_zero_iff_nil in H0. subst cf.
    assert (Hids : ids = []) by reflexivity.
    rewrite (measure_execution_panic _ _ _ _ _ _
      "attempt to calculate the remainder with a divisor of zero"%string (mkWorld e d)).
    { split; reflexivity. }
    rewrite (handle_then _ []) by exact Hc. cbn [seq]. rewrite for_each_cons.
    subst body. cbv beta. rewrite Hids. reflexivity.
  - assert (Hne : ids <> []).
    { subst ids. unfold first_keys. intro Hn. apply map_eq_nil in Hn.
      apply (f_equal (@List.length _)) in Hn. rewrite length_firstn, length_iterator_start in Hn.
      cbn [List.length] in Hn. lia. }
    destruct (measure_execution_ok database_name "Read By ID Many Times" (S n) cpu
      (handle USERS_CF ;;; for_each (seq 0 (S n)) body) (mkWorld e d) tt (mkWorld e d)) as [r [Hr _]].
    { rewrite (handle_then _ cf) by exact Hc. apply for_each_pure_ok.
      intros i _. subst body. cbv beta.
      destruct (nth_error_mod_some ids i Hne) as [x Hx].
      unfold bind at 1, from_outcome at 1, rem_usize.
      destruct (Nat.eqb (List.length ids) 0) eqn:Hl.
      { apply Nat.eqb_eq, length_zero_iff_nil in Hl. contradiction. }
      unfold bind at 1, from_outcome at 1, index. rewrite Hx.
      assert (Hk : In x ids) by exact (nth_error_In _ _ Hx).
      destruct (in_first_keys cf (S n) x Hk) as [v Hv].
      destruct (get_cf_in cf x v Hv) as [v' [Hg Hin']].
      unfold bind at 1, db_get. cbn [store]. rewrite (lookup_of_handle _ _ x cf Hc), Hg.
      rewrite forallb_forall in Hu. specialize (Hu _ Hin'). cbn in Hu.
      destruct v'; try discriminate. reflexivity. }
    rewrite Hr. cbn [andb]. split; [reflexivity | now exists r].
Qed.

Lemma get_cf_remove_other (cf : ColumnFamily) (id k : string) :
  k <> id -> get_cf (remove_key id cf) k = get_cf cf k.
Proof.
  intro Hne. unfold get_cf, remove_key.
  induction cf as [| [k' v] cf IH]; [reflexivity |]. cbn [filter fst].
  destruct (String.eqb_spec k' id) as [-> | Hk']; cbn [negb].
  - rewrite IH. cbn. destruct (String.eqb_spec id k); [congruence | reflexivity].
  - cbn. destruct (String.eqb k' k); [reflexivity | exact IH].
Qed.

Lemma activate_batch_ok (cf : ColumnFamily) (ids : list string) (batch : list BatchOp) (e : E) (d : DB) :
  cf_handle d USERS_CF = Some cf ->
  (forall id, In id ids -> exists u, get_cf cf id = Some (VUser u)) ->
  activate_batch ids batch (mkWorld e d) =
  (Ok (batch ++ flat_map (fun id =>
         match get_cf cf id with
         | Some (VUser u) => [PutCf USERS_CF id (VUser (set_active true u))]
         | _ => []
         end) ids), mkWorld e d).
Proof.
  intros Hc. revert batch. induction ids as [| id ids IH]; intros batch Hall.
  - cbn. now rewrite app_nil_r.
  - destruct (Hall id (or_introl eq_refl)) as [u Hg].
    cbn [activate_batch]. unfold bind at 1, db_get. cbn [store].
    rewrite (lookup_of_handle _ _ id cf Hc), Hg.
    unfold bind, from_outcome. cbn [deserialize_user].
    rewrite IH by (intros id' Hi; apply Hall; now right).
    cbn [flat_map]. rewrite Hg. now rewrite <- app_assoc.
Qed.

Lemma write_activations (cf : ColumnFamily) (ids : list string) (d0 : DB) (cf0 : ColumnFamily) :
  cf_handle d0 USERS_CF = Some cf0 ->
  (forall id, In id ids -> exists u, get_cf cf id = Some (VUser u)) ->
  let ops := flat_map (fun id =>
         match get_cf cf id with
         | Some (VUser u) => [PutCf USERS_CF id (VUser (set_active true u))]
         | _ => []
         end) ids in
  (forall name, name <> USERS_CF -> cf_handle (write d0 ops) name = cf_handle d0 name) /\
  exists cf1, cf_handle (write d0 ops) USERS_CF = Some cf1 /\
    forall k, get_cf cf1 k =
      if existsb (String.eqb k) ids
      then match get_cf cf k with
           | Some (VUser u) => Some (VUser (set_active true u))
           | o => o
           end
      else get_cf cf0 k.
Proof.
  cbv zeta. revert d0 cf0. induction ids as [| id ids IH]; intros d0 cf0 Hc Hall.
  - split; [reflexivity |]. exists cf0. split; [exact Hc | reflexivity].
  - destruct (Hall id (or_introl eq_refl)) as [u Hg].
    cbn [flat_map]. rewrite Hg. cbn [app]. change (PutCf USERS_CF id (VUser (set_active true u)) :: ?l)
      with ([PutCf USERS_CF id (VUser (set_active true u))] ++ l).
    rewrite write_app.
    pose proof (cf_handle_put USERS_CF id (VUser (set_active true u)) d0 cf0 Hc) as Hc1.
    destruct (IH _ _ Hc1 (fun id' Hi => Hall id' (or_intror Hi))) as [Hoth [cf1 [Hc2 Hk]]].
    split.
    + intros name Hn. rewrite Hoth by exact Hn. unfold write. cbn [fold_left apply_op].
      rewrite RocksDBFacts.cf_handle_update.
      destruct (String.eqb_spec name USERS_CF); [contradiction | reflexivity].
    + exists cf1. split; [exact Hc2 |]. intro k. rewrite Hk. cbn [existsb].
      destruct (String.eqb_spec k id) as [-> | Hne]; cbn [orb].
      * rewrite Hg. destruct (existsb _ ids); [reflexivity |]. apply get_cf_head.
      * destruct (existsb _ ids); [reflexivity |].
        unfold get_cf at 1. cbn [find fst]. destruct (String.eqb_spec id k); [congruence |].
        fold (get_cf (remove_key id cf0) k). now apply get_cf_remove_other.
Qed.

(** RocksDB's [update_single_field_many_entries] on a users column family
    holding only users succeeds, keeps the environment and the other column
    families, and sets [active] on exactly the users under the first [count]
    keys in iteration order. *)
Theorem rocksdb_update_single_field_many_entries_spec (cpu count : nat) (e : E) (d : DB)
    (cf : ColumnFamily) :
  cf_handle d USERS_CF = Some cf ->
  forallb (fun kv => match snd kv with VUser _ => true | _ => false end) cf = true ->
  let R := update_single_field_many_entries cpu count (mkWorld e d) in
  (exists r, fst R = Ok r) /\ env_of (snd R) = e /\
  (forall name, name <> USERS_CF -> cf_handle (store (snd R)) name = cf_handle d name) /\
  exists cf1, cf_handle (store (snd R)) USERS_CF = Some cf1 /\
    forall k, get_cf cf1 k =
      if existsb (String.eqb k) (first_keys cf count)
      then match get_cf cf k with
           | Some (VUser u) => Some (VUser (set_active true u))
           | o => o
           end
      else get_cf cf k.
Proof.
  intros Hc Hu. cbv zeta.
  assert (Hall : forall id, In id (first_keys cf count) -> exists u, get_cf cf id = Some (VUser u)).
  { intros id Hi. destruct (in_first_keys cf count id Hi) as [v Hv].
    destruct (get_cf_in cf id v Hv) as [v' [Hg Hin]].
    rewrite forallb_forall in Hu. specialize (Hu _ Hin). cbn in Hu.
    destruct v'; try discriminate. eauto. }
  set (ops := flat_map (fun id =>
         match get_cf cf id with
         | Some (VUser u) => [PutCf USERS_CF id (VUser (set_active true u))]
         | _ => []
         end) (first_keys cf count)).
  assert (HR : update_single_field_many_entries cpu count (mkWorld e d) =
    measure_execution database_name "Update Single Field Many Entries" count cpu
      (handle USERS_CF ;;; batch <- activate_batch (first_keys cf count) [] ;; db_write batch)
      (mkWorld e d)).
  { unfold update_single_field_many_entries, bind at 1, bind at 1, handle at 1. cbn [store].
    now rewrite Hc. }
  destruct (measure_execution_ok database_name "Update Single Field Many Entries" count cpu
    (handle USERS_CF ;;; batch <- activate_batch (first_keys cf count) [] ;; db_write batch)
    (mkWorld e d) tt (mkWorld e (write d ops))) as [r [Hr _]].
  { rewrite (handle_then _ cf) by exact Hc. unfold bind at 1.
    rewrite (activate_batch_ok cf _ [] e d Hc Hall). reflexivity. }
  rewrite HR, Hr. cbn [fst snd store env_of].
  split; [now exists r |]. split; [reflexivity |].
  exact (write_activations cf (first_keys cf count) d cf Hc Hall).
Qed.

End RocksDBOpsFacts.
End RocksDBOpsFacts.


Module DuckdbInsertFacts.
Import Duckdb DuckdbOps.

Section DuckdbInsertFacts.
Context {E : Type} `{Env E}.

Lemma duck_single_loop (is : list nat) (e : E) (d : SqlDb) :
  for_each is (fun _ =>
    user <- lift generate_random_user ;;
    execute (fun d => insert_user d user)) (mkWorld e d) =
  (Ok tt, mkWorld (snd (collect (List.length is) generate_random_user e))
            (mkSqlDb (users_t d ++ fst (collect (List.length is) generate_random_user e))
               (products_t d) (orders_t d))).
Proof.
  revert e d. induction is as [| i is IH]; intros e d.
  - cbn. now rewrite app_nil_r, sqldb_eta.
  - rewrite for_each_cons. unfold bind at 1, lift at 1.
    rewrite world_generate_random_user.
    cbn [List.length collect]. destruct (generate_random_user e) as [u e1].
    unfold execute at 1. cbn [store insert_user set_store env_of].
    etransitivity; [exact (IH e1 _) |].
    destruct (collect (List.length is) generate_random_user e1) as [l e2].
    cbn [fst snd users_t products_t orders_t]. now rewrite <- app_assoc.
Qed.

Lemma duck_insert_each_products (l : list Product) (d : SqlDb) :
  insert_each insert_product l d = Ok (mkSqlDb (users_t d) (products_t d ++ l) (orders_t d)).
Proof.
  revert d. induction l as [| p l IH]; intro d.
  - cbn. now rewrite app_nil_r, sqldb_eta.
  - cbn [insert_each insert_product obind]. rewrite IH. cbn. now rewrite <- app_assoc.
Qed.

(** DuckDB's [insert_single_many_times] succeeds and appends the drawn users
    to the users table. *)
Theorem duckdb_insert_single_many_times_users (cpu count : nat) (e : E) (d : SqlDb) :
  let R := insert_single_many_times cpu count (mkWorld e d) in
  (exists r, fst R = Ok r) /\
  snd R = mkWorld (snd (collect count generate_random_user e))
            (mkSqlDb (users_t d ++ fst (collect count generate_random_user e))
               (products_t d) (orders_t d)).
Proof.
  cbv zeta.
  destruct (measure_execution_ok database_name "insert_single_many_times" count cpu
    (spawn_blocking (transaction_with (for_range count (fun _ =>
       user <- lift generate_random_user ;;
       execute (fun d => insert_user d user))))) (mkWorld e d) tt
    (mkWorld (snd (collect count generate_random_user e))
            (mkSqlDb (users_t d ++ fst (collect count generate_random_user e))
               (products_t d) (orders_t d)))) as [r [Hr _]].
  { unfold spawn_blocking, transaction_with, for_range.
    rewrite duck_single_loop, length_seq. reflexivity. }
  change (insert_single_many_times cpu count (mkWorld e d)) with
    (measure_execution database_name "insert_single_many_times" count cpu
    (spawn_blocking (transaction_with (for_range count (fun _ =>
       user <- lift generate_random_user ;;
       execute (fun d => insert_user d user))))) (mkWorld e d)).
  rewrite Hr. split; [now exists r | reflexivity].
Qed.

(** DuckDB's [insert_many_at_once] succeeds and appends the drawn products
    (not users) to the products table. *)
Theorem duckdb_insert_many_at_once_products (cpu count : nat) (e : E) (d : SqlDb) :
  let R := insert_many_at_once cpu count (mkWorld e d) in
  (exists r, fst R = Ok r) /\
  snd R = mkWorld (snd (collect count generate_random_product e))
            (mkSqlDb (users_t d) (products_t d ++ fst (collect count generate_random_product e))
               (orders_t d)).
Proof.
  cbv zeta.
  destruct (measure_execution_ok database_name "insert_many_at_once" count cpu
    (products <- lift (collect count generate_random_product) ;;
     run_blocking (in_transaction (insert_each insert_product products))) (mkWorld e d) tt
    (mkWorld (snd (collect count generate_random_product e))
            (mkSqlDb (users_t d) (products_t d ++ fst (collect count generate_random_product e))
               (orders_t d)))) as [r [Hr _]].
  { unfold bind at 1, lift at 1.
    rewrite (world_collect _ _ world_generate_random_product).
    destruct (collect count generate_random_product e) as [l e1].
    unfold run_blocking, in_transaction. cbn [store].
    rewrite duck_insert_each_products. reflexivity. }
  change (insert_many_at_once cpu count (mkWorld e d)) with
    (measure_execution database_name "insert_many_at_once" count cpu
    (products <- lift (collect count generate_random_product) ;;
     run_blocking (in_transaction (insert_each insert_product products))) (mkWorld e d)).
  rewrite Hr. split; [now exists r | reflexivity].
Qed.

End DuckdbInsertFacts.
End DuckdbInsertFacts.





Module DuckdbReadFacts.
Import Duckdb DuckdbOps.




Section DuckdbReadFacts.
Context {E : Type} `{Env E}.







End DuckdbReadFacts.
End DuckdbReadFacts.


Module DuckdbBatchFacts.
Import Duckdb DuckdbOps.
Local Open Scope nat_scope.


Section DuckdbBatchFacts.
Context {E : Type} `{Env E}.





End DuckdbBatchFacts.
End DuckdbBatchFacts.

Section MeasurePassThrough.
Context {W : Type} `{Env W}.


End MeasurePassThrough.

(** ** Concrete runs of the RocksDB theorems with hypotheses *)

Module RocksDBRuns.
Import RocksDB RocksDBOps.

(** One user under the key ["a"], read twice: the read loop succeeds and
    leaves the world as it was. *)
Lemma rocksdb_read_by_id_many_times_outcome_witness :
  cf_handle [(USERS_CF, [("a"%string, VUser (mkUser 1 "n" "m" 0 false))])] USERS_CF =
    Some [("a"%string, VUser (mkUser 1 "n" "m" 0 false))] /\
  forallb (fun kv => match snd kv with VUser _ => true | _ => false end)
    [("a"%string, VUser (mkUser 1 "n" "m" 0 false))] = true /\
  (let R := read_by_id_many_times 4 2
              (mkWorld test_env0 [(USERS_CF, [("a"%string, VUser (mkUser 1 "n" "m" 0 false))])]) in
   snd R = mkWorld test_env0 [(USERS_CF, [("a"%string, VUser (mkUser 1 "n" "m" 0 false))])] /\
   if Nat.eqb (List.length [("a"%string, VUser (mkUser 1 "n" "m" 0 false))]) 0
      && negb (Nat.eqb 2 0)
   then fst R = Panic "attempt to calculate the remainder with a divisor of zero"%string
   else exists r, fst R = Ok r).
Proof.
  split; [reflexivity | split; [reflexivity |]].
  exact (RocksDBOpsFacts.rocksdb_read_by_id_many_times_outcome 4 2 test_env0
           [(USERS_CF, [("a"%string, VUser (mkUser 1 "n" "m" 0 false))])]
           [("a"%string, VUser (mkUser 1 "n" "m" 0 false))]
           eq_refl eq_refl).
Defined.

(** The same column family, with one entry activated. *)
Lemma rocksdb_update_single_field_many_entries_spec_witness :
  cf_handle [(USERS_CF, [("a"%string, VUser (mkUser 1 "n" "m" 0 false))])] USERS_CF =
    Some [("a"%string, VUser (mkUser 1 "n" "m" 0 false))] /\
  forallb (fun kv => match snd kv with VUser _ => true | _ => false end)
    [("a"%string, VUser (mkUser 1 "n" "m" 0 false))] = true /\
  (let R := update_single_field_many_entries 4 1
              (mkWorld test_env0 [(USERS_CF, [("a"%string, VUser (mkUser 1 "n" "m" 0 false))])]) in
   (exists r, fst R = Ok r) /\ env_of (snd R) = test_env0 /\
   (forall name, name <> USERS_CF -> cf_handle (store (snd R)) name =
      cf_handle [(USERS_CF, [("a"%string, VUser (mkUser 1 "n" "m" 0 false))])] name) /\
   exists cf1, cf_handle (store (snd R)) USERS_CF = Some cf1 /\
     forall k, get_cf cf1 k =
       if existsb (String.eqb k) (first_keys [("a"%string, VUser (mkUser 1 "n" "m" 0 false))] 1)
       then match get_cf [("a"%string, VUser (mkUser 1 "n" "m" 0 false))] k with
            | Some (VUser u) => Some (VUser (set_active true u))
            | o => o
            end
       else get_cf [("a"%string, VUser (mkUser 1 "n" "m" 0 false))] k).
Proof.
  split; [reflexivity | split; [reflexivity |]].
  exact (RocksDBOpsFacts.rocksdb_update_single_field_many_entries_spec 4 1 test_env0
           [(USERS_CF, [("a"%string, VUser (mkUser 1 "n" "m" 0 false))])]
           [("a"%string, VUser (mkUser 1 "n" "m" 0 false))]
           eq_refl eq_refl).
Defined.

End RocksDBRuns.
